(** * Role-based prompt agents: a shallow embedding of [Utils/Agents.py]

    The development follows the Python module top-down:
    - Python values, exceptions and the effect monad (printing to the
      standard output and sending requests to the completion service);
    - text codecs ([str.encode] / [bytes.decode]): UTF-8, ASCII, Latin-1
      and the single-byte code pages, Windows-1252 among them;
    - the format-string machinery behind [PromptTemplate.from_template]
      and [PromptTemplate.format];
    - the class [Agent] ([__init__], [create_prompt_template], [run]) and
      its four subclasses;
    - the properties of the agent-invocation contract. *)

From Stdlib Require Import NArith List String Ascii Lia.
From stdpp Require Import base option list gmap.
Import ListNotations.

Set Warnings "-register-all".
Local Open Scope N_scope.

(** ** Text

    A Python [str] is a sequence of Unicode code points; lone surrogates
    are legal elements of a [str].  Bytes objects are sequences of numbers
    below 256. *)

Abbreviation text := (list N).
Abbreviation bytes := (list N).

(** String literals of the source, read as ASCII code points. *)
Definition txt (s : string) : text := map N_of_ascii (list_ascii_of_string s).

(** ['\n'.join(lines)] *)
Fixpoint join_lines (ls : list text) : text :=
  match ls with
  | [] => []
  | [l] => l
  | l :: rest => l ++ 10 :: join_lines rest
  end.

(** [needle in haystack] for Python strings. *)
Definition contains (haystack needle : text) : Prop :=
  exists pre post, haystack = pre ++ needle ++ post.

Definition is_brace (c : N) : bool := (c =? 123) || (c =? 125).

(** No ['{'] and no ['}'] occurs in the text. *)
Definition brace_free (s : text) : bool := forallb (fun c => negb (is_brace c)) s.

(** ** Python values

    Only the shapes the module can observe are distinguished: [None],
    strings, sequences and opaque objects with attributes.  Sequences and
    objects carry the result of [str()] on them. *)

Inductive pyval :=
| PNone
| PStr (s : text)
| PList (items : list pyval) (shown : text)
| PObj (attrs : gmap text pyval) (shown : text).

(** [str(v)] *)
Definition py_str (v : pyval) : text :=
  match v with
  | PNone => txt "None"
  | PStr s => s
  | PList _ shown => shown
  | PObj _ shown => shown
  end.

(** [bool(v)] for the values read from the environment: [None] and the
    empty string are false. *)
Definition truthy (v : option text) : bool :=
  match v with
  | Some (_ :: _) => true
  | _ => false
  end.

(** [a or b] *)
Definition py_or (a b : option text) : option text :=
  if truthy a then a else b.

(** [str(b)] for a [bool]. *)
Definition bool_str (b : bool) : text :=
  if b then txt "True" else txt "False".

(** ** Exceptions *)

(** Failures of the completion client (all are subclasses of
    [Exception]). *)
Inductive api_failure :=
| APIConnectionError
| APITimeoutError
| AuthenticationError
| PermissionDeniedError
| RateLimitError
| APIStatusError (status : N)
| APIResponseValidationError
| JSONDecodeError.

Inductive exn :=
| KeyError (key : pyval)
| IndexError
| TypeError
| AttributeError (name : text)
| ValueError (msg : text)
| RuntimeError (msg : text)
| UnicodeEncodeError (codec : text)
| ClientError (kind : api_failure) (msg : text)
| KeyboardInterrupt
| SystemExit.

(** [isinstance(e, Exception)]: what an [except Exception] clause catches. *)
Definition is_Exception (e : exn) : bool :=
  match e with
  | KeyboardInterrupt | SystemExit => false
  | _ => true
  end.

(** Outcome of evaluating an expression.  [Unspecified] marks library
    behaviour that is left outside the model (it depends on the installed
    library version or on the format mini-language); nothing is proved
    about it and no handler catches it. *)
Inductive result (A : Type) : Type :=
| Ret (a : A)
| Raise (e : exn)
| Unspecified.
Arguments Ret {A} a.
Arguments Raise {A} e.
Arguments Unspecified {A}.

#[global] Instance result_ret : MRet result := fun A a => Ret a.
#[global] Instance result_bind : MBind result := fun A B f m =>
  match m with
  | Ret a => f a
  | Raise e => Raise e
  | Unspecified => Unspecified
  end.

(** [try: body / except Exception: handler] on pure computations. *)
Definition try_catch {A} (body : result A) (handler : exn -> result A) : result A :=
  match body with
  | Raise e => if is_Exception e then handler e else Raise e
  | r => r
  end.

(** ** The world: standard output and the remote service *)

(** One argument of a [print] call. *)
Inductive printed :=
| PrStr (s : text)
| PrExn (e : exn).

(** The body of one chat-completion request. *)
Record request := Request {
  req_base_url : text;
  req_api_key : text;
  req_model : text;
  req_messages : list (text * text);   (* (role, content) *)
}.

Record world := World {
  stdout : list (list printed);   (* one entry per [print] call *)
  sent : list request;            (* requests issued so far *)
}.

Definition M (A : Type) : Type := world -> result A * world.

#[global] Instance M_ret : MRet M := fun A a w => (Ret a, w).
#[global] Instance M_bind : MBind M := fun A B f m w =>
  match m w with
  | (Ret a, w') => f a w'
  | (Raise e, w') => (Raise e, w')
  | (Unspecified, w') => (Unspecified, w')
  end.

Definition lift {A} (r : result A) : M A := fun w => (r, w).

(** [try: body / except Exception as e: handler e] *)
Definition try_except {A} (body : M A) (handler : exn -> M A) : M A := fun w =>
  match body w with
  | (Raise e, w') => if is_Exception e then handler e w' else (Raise e, w')
  | r => r
  end.

(** The arguments of a [print] call reach the output: one entry holding
    them.  This is [print] once the stream has taken the text; the
    encoder a stream puts in front of it, which can refuse a text, is in
    [print_on] and [print_to] below. *)
Definition print (args : list printed) : M unit := fun w =>
  (Ret tt, World (stdout w ++ [args]) (sent w)).

(** ** Attribute access and indexing *)

(** [v.name] *)
Definition getattr (v : pyval) (name : text) : result pyval :=
  match v with
  | PObj attrs _ =>
      match attrs !! name with
      | Some x => Ret x
      | None => Raise (AttributeError name)
      end
  | _ => Raise (AttributeError name)
  end.

(** [v[i]] for a non-negative index. *)
Definition getitem (v : pyval) (i : nat) : result pyval :=
  match v with
  | PList items _ =>
      match items !! i with
      | Some x => Ret x
      | None => Raise IndexError
      end
  | PStr s =>
      match s !! i with
      | Some c => Ret (PStr [c])
      | None => Raise IndexError
      end
  | _ => Raise TypeError
  end.

(** ** Codecs: [str.encode] and [bytes.decode]

    A codec encodes one code point at a time: either to its byte sequence
    or not at all (the strict error handler then raises
    [UnicodeEncodeError]).  Decoding is only ever called with the
    ['replace'] error handler, which cannot fail. *)

Record Codec := {
  codec_name : text;
  encode_cp : N -> option bytes;
  decode_replace : bytes -> text;
}.

Definition encodable (cd : Codec) (c : N) : bool :=
  match encode_cp cd c with Some _ => true | None => false end.

(** ['?'], the marker the ['replace'] handler substitutes on encoding. *)
Definition qmark : N := 63.

(** U+FFFD, the marker the ['replace'] handler substitutes on decoding. *)
Definition replacement_char : N := 0xFFFD.

Inductive errors := Strict | Replace.

(** [s.encode(codec, errors=...)] on the code points of a [str]. *)
Fixpoint encode_text (cd : Codec) (mode : errors) (s : text) : result bytes :=
  match s with
  | [] => Ret []
  | c :: rest =>
      match encode_cp cd c with
      | Some bs => tail ← encode_text cd mode rest; Ret (bs ++ tail)
      | None =>
          match mode with
          | Strict => Raise (UnicodeEncodeError (codec_name cd))
          | Replace =>
              match encode_cp cd qmark with
              | Some bs => tail ← encode_text cd mode rest; Ret (bs ++ tail)
              | None => Raise (UnicodeEncodeError (codec_name cd))
              end
          end
      end
  end.

(** [v.encode(codec, errors=...)]: only a [str] has the method. *)
Definition py_encode (cd : Codec) (mode : errors) (v : pyval) : result bytes :=
  match v with
  | PStr s => encode_text cd mode s
  | _ => Raise (AttributeError (txt "encode"))
  end.

(** What [errors='replace'] encoding turns one code point into, seen after
    decoding. *)
Definition scrub (cd : Codec) (c : N) : N :=
  if encodable cd c then c else qmark.

(** *** UTF-8 *)

Definition is_surrogate (c : N) : bool := (0xD800 <=? c) && (c <=? 0xDFFF).

Definition utf8_encode_cp (c : N) : option bytes :=
  if c <? 0x80 then Some [c]
  else if c <? 0x800 then Some [0xC0 + c / 64; 0x80 + c mod 64]
  else if c <? 0x10000 then
    if is_surrogate c then None
    else Some [0xE0 + c / 4096; 0x80 + (c / 64) mod 64; 0x80 + c mod 64]
  else if c <? 0x110000 then
    Some [0xF0 + c / 262144; 0x80 + (c / 4096) mod 64;
          0x80 + (c / 64) mod 64; 0x80 + c mod 64]
  else None.

(** The decoder is a state machine over the bytes: the code point
    assembled so far, the number of continuation bytes still expected, and
    the range allowed for the next byte. *)
Record utf8_state := Utf8State {
  u_cp : N;
  u_needed : nat;
  u_lower : N;
  u_upper : N;
}.

Definition utf8_idle : utf8_state := Utf8State 0 0 0x80 0xBF.

Definition between (lo hi b : N) : bool := (lo <=? b) && (b <=? hi).

(** A byte read while no sequence is open. *)
Definition utf8_lead (b : N) : text * utf8_state :=
  if b <? 0x80 then ([b], utf8_idle)
  else if between 0xC2 0xDF b then ([], Utf8State (b - 0xC0) 1 0x80 0xBF)
  else if between 0xE0 0xEF b then
    ([], Utf8State (b - 0xE0) 2
           (if b =? 0xE0 then 0xA0 else 0x80)
           (if b =? 0xED then 0x9F else 0xBF))
  else if between 0xF0 0xF4 b then
    ([], Utf8State (b - 0xF0) 3
           (if b =? 0xF0 then 0x90 else 0x80)
           (if b =? 0xF4 then 0x8F else 0xBF))
  else ([replacement_char], utf8_idle).

(** One byte: the code points it completes and the next state.  A byte
    that cannot continue the open sequence closes it with U+FFFD and is
    read again as a lead byte. *)
Definition utf8_step (st : utf8_state) (b : N) : text * utf8_state :=
  match u_needed st with
  | O => utf8_lead b
  | S n =>
      if between (u_lower st) (u_upper st) b then
        let cp := u_cp st * 64 + (b - 0x80) in
        match n with
        | O => ([cp], utf8_idle)
        | S _ => ([], Utf8State cp n 0x80 0xBF)
        end
      else
        let '(out, st') := utf8_lead b in (replacement_char :: out, st')
  end.

Fixpoint utf8_decode_from (st : utf8_state) (bs : bytes) : text :=
  match bs with
  | [] => match u_needed st with O => [] | S _ => [replacement_char] end
  | b :: rest =>
      let '(out, st') := utf8_step st b in out ++ utf8_decode_from st' rest
  end.

Definition utf_8 : Codec := {|
  codec_name := txt "utf-8";
  encode_cp := utf8_encode_cp;
  decode_replace := utf8_decode_from utf8_idle;
|}.

(** *** ASCII and Latin-1 *)

Definition us_ascii : Codec := {|
  codec_name := txt "ascii";
  encode_cp := fun c => if c <? 0x80 then Some [c] else None;
  decode_replace := map (fun b => if b <? 0x80 then b else replacement_char);
|}.

Definition latin_1 : Codec := {|
  codec_name := txt "latin-1";
  encode_cp := fun c => if c <? 0x100 then Some [c] else None;
  decode_replace := fun bs => bs;
|}.

(** *** Single-byte code pages

    A charmap codec is given by its decoding table: entry [b] is the code
    point byte [b] stands for, if any.  A code point is encoded as the
    first byte that stands for it. *)

Definition charmap (name : text) (table : list (option N)) : Codec := {|
  codec_name := name;
  encode_cp := fun c =>
    (fun hit : nat * option N => [N.of_nat (fst hit)])
      <$> list_find (fun entry => entry = Some c) table;
  decode_replace :=
    map (fun b => default replacement_char (mjoin (table !! N.to_nat b)));
|}.

(** Windows-1252: ASCII and Latin-1 except for the block 0x80-0x9F, five
    bytes of which stand for nothing. *)
Definition cp1252_table : list (option N) :=
  map (fun n => Some (N.of_nat n)) (seq 0 128)
  ++ [Some 0x20AC; None; Some 0x201A; Some 0x0192; Some 0x201E; Some 0x2026;
      Some 0x2020; Some 0x2021; Some 0x02C6; Some 0x2030; Some 0x0160;
      Some 0x2039; Some 0x0152; None; Some 0x017D; None;
      None; Some 0x2018; Some 0x2019; Some 0x201C; Some 0x201D; Some 0x2022;
      Some 0x2013; Some 0x2014; Some 0x02DC; Some 0x2122; Some 0x0161;
      Some 0x203A; Some 0x0153; None; Some 0x017E; Some 0x0178]
  ++ map (fun n => Some (N.of_nat n)) (seq 160 96).

Definition cp1252 : Codec := charmap (txt "cp1252") cp1252_table.

(** What the sanitizer relies on: ['?'] can be encoded, and decoding what
    strict encoding produced gives the text back. *)
Class CodecLaws (cd : Codec) : Prop := {
  qmark_encodable : encodable cd qmark = true;
  decode_encode : forall s bs,
    encode_text cd Strict s = Ret bs -> decode_replace cd bs = s;
}.

(** ** Format strings

    [PromptTemplate] delegates to [string.Formatter]: the template is cut
    into literal chunks and replacement fields by a single left-to-right
    scan, [{{] and [}}] standing for one brace. *)

Record field := Field {
  field_name : text;
  conversion : option N;
  format_spec : text;
}.

(** One element of [Formatter().parse(template)]: the literal text and
    the replacement field that follows it, if any. *)
Abbreviation item := (text * option field)%type.

Inductive scan :=
| InLiteral (lit : text)
| AfterOpen (lit : text)
| AfterClose (lit : text)
| InName (lit name : text)
| InIndex (lit name : text)
| AtConversion (lit name : text)
| AfterConversion (lit name : text) (conv : N)
| InSpec (lit name : text) (conv : option N) (spec : text) (depth : nat).

Definition chr (s : string) : N :=
  match s with
  | String a _ => N_of_ascii a
  | EmptyString => 0
  end.

(** A character of a field name. *)
Definition name_char (lit name : text) (c : N) : result (list item * scan) :=
  if c =? chr "{" then Raise (ValueError (txt "unexpected '{' in field name"))
  else if c =? chr "[" then Ret ([], InIndex lit (name ++ [c]))
  else if c =? chr "}" then Ret ([(lit, Some (Field name None []))], InLiteral [])
  else if c =? chr ":" then Ret ([], InSpec lit name None [] 1)
  else if c =? chr "!" then Ret ([], AtConversion lit name)
  else Ret ([], InName lit (name ++ [c])).

Definition scan_step (st : scan) (c : N) : result (list item * scan) :=
  match st with
  | InLiteral lit =>
      if c =? chr "{" then Ret ([], AfterOpen lit)
      else if c =? chr "}" then Ret ([], AfterClose lit)
      else Ret ([], InLiteral (lit ++ [c]))
  | AfterOpen lit =>
      if c =? chr "{" then Ret ([(lit ++ [c], None)], InLiteral [])
      else name_char lit [] c
  | AfterClose lit =>
      if c =? chr "}" then Ret ([(lit ++ [c], None)], InLiteral [])
      else Raise (ValueError (txt "Single '}' encountered in format string"))
  | InName lit name => name_char lit name c
  | InIndex lit name =>
      if c =? chr "]" then Ret ([], InName lit (name ++ [c]))
      else Ret ([], InIndex lit (name ++ [c]))
  | AtConversion lit name => Ret ([], AfterConversion lit name c)
  | AfterConversion lit name conv =>
      if c =? chr "}" then Ret ([(lit, Some (Field name (Some conv) []))], InLiteral [])
      else if c =? chr ":" then Ret ([], InSpec lit name (Some conv) [] 1)
      else Raise (ValueError (txt "expected ':' after conversion specifier"))
  | InSpec lit name conv spec depth =>
      if c =? chr "{" then Ret ([], InSpec lit name conv (spec ++ [c]) (S depth))
      else if c =? chr "}" then
        match depth with
        | 1%nat => Ret ([(lit, Some (Field name conv spec))], InLiteral [])
        | _ => Ret ([], InSpec lit name conv (spec ++ [c]) (pred depth))
        end
      else Ret ([], InSpec lit name conv (spec ++ [c]) depth)
  end.

(** The end of the format string. *)
Definition scan_end (st : scan) : result (list item) :=
  match st with
  | InLiteral [] => Ret []
  | InLiteral lit => Ret [(lit, None)]
  | AfterOpen _ => Raise (ValueError (txt "Single '{' encountered in format string"))
  | AfterClose _ => Raise (ValueError (txt "Single '}' encountered in format string"))
  | InName _ _ | InIndex _ _ =>
      Raise (ValueError (txt "expected '}' before end of string"))
  | AtConversion _ _ =>
      Raise (ValueError (txt "end of string while looking for conversion specifier"))
  | AfterConversion _ _ _ | InSpec _ _ _ _ _ =>
      Raise (ValueError (txt "unmatched '{' in format spec"))
  end.

(** The scan over a prefix of the format string: the items completed on
    the way and the state reached. *)
Fixpoint scan_text (st : scan) (s : text) : result (list item * scan) :=
  match s with
  | [] => Ret ([], st)
  | c :: rest =>
      '(out, st1) ← scan_step st c;
      '(out', st2) ← scan_text st1 rest;
      Ret (out ++ out', st2)
  end.

(** [list(Formatter().parse(s))] *)
Fixpoint parse_from (st : scan) (s : text) : result (list item) :=
  match s with
  | [] => scan_end st
  | c :: rest =>
      '(out, st') ← scan_step st c;
      tail ← parse_from st' rest;
      Ret (out ++ tail)
  end.

Definition formatter_parse (s : text) : result (list item) :=
  parse_from (InLiteral []) s.

Definition is_digit (c : N) : bool := between 48 57 c.

Definition is_name_break (c : N) : bool := (c =? chr ".") || (c =? chr "[").

(** The part of a field name before the first [.] or [[]: the argument
    the field refers to. *)
Fixpoint first_part (name : text) : text :=
  match name with
  | [] => []
  | c :: rest => if is_name_break c then [] else c :: first_part rest
  end.

Definition is_empty (s : text) : bool :=
  match s with [] => true | _ => false end.

Definition all_digits (s : text) : bool := negb (is_empty s) && forallb is_digit s.

(** A replacement field, formatted against the keyword arguments; there
    are no positional arguments.  Attribute access and indexing on the
    argument, conversions and format specifications are not modelled, nor
    are names written with non-ASCII characters (which may be digits). *)
Definition render_field (kwargs : gmap text pyval) (f : field) : result text :=
  let first := first_part (field_name f) in
  if existsb (fun c => 128 <=? c) first then Unspecified
  else if is_empty (field_name f) || all_digits first then Raise IndexError
  else
    match kwargs !! first with
    | None => Raise (KeyError (PStr first))
    | Some v =>
        if is_empty (drop (length first) (field_name f))
           && negb (bool_decide (is_Some (conversion f)))
           && is_empty (format_spec f)
        then Ret (py_str v)
        else Unspecified
    end.

Fixpoint render_items (kwargs : gmap text pyval) (items : list item) : result text :=
  match items with
  | [] => Ret []
  | (lit, fld) :: rest =>
      value ← match fld with
              | None => Ret []
              | Some f => render_field kwargs f
              end;
      tail ← render_items kwargs rest;
      Ret (lit ++ value ++ tail)
  end.

(** [Formatter().vformat(s, (), kwargs)]: the items are formatted as the
    scan produces them, so the first failure in reading order wins. *)
Fixpoint vformat_from (kwargs : gmap text pyval) (st : scan) (s : text) : result text :=
  match s with
  | [] => items ← scan_end st; render_items kwargs items
  | c :: rest =>
      '(out, st') ← scan_step st c;
      head ← render_items kwargs out;
      tail ← vformat_from kwargs st' rest;
      Ret (head ++ tail)
  end.

Definition vformat (s : text) (kwargs : gmap text pyval) : result text :=
  vformat_from kwargs (InLiteral []) s.

(** *** [PromptTemplate] *)

Record PromptTemplate := {
  template : text;
  input_variables : gset text;
}.

Definition field_names (items : list item) : list text :=
  omap (fun it : item => field_name <$> snd it) items.

(** Variable names on which releases of the template library disagree:
    some reject names with attribute access or indexing and all-digit
    names when the template is built, others accept them. *)
Definition release_dependent (name : text) : bool :=
  existsb (fun c => (c =? chr ".") || (c =? chr "[") || (c =? chr "]") || (128 <=? c)) name
  || all_digits name.

(** A format specification with a replacement field of its own, as in
    [{a:{b}}]: releases of the template library disagree on these too,
    some refusing them when the template is built. *)
Definition nested_spec (it : item) : bool :=
  match snd it with
  | Some f => existsb (fun c => c =? chr "{") (format_spec f)
  | None => false
  end.

(** [PromptTemplate.from_template(t)] with the default f-string format. *)
Definition from_template (t : text) : result PromptTemplate :=
  items ← formatter_parse t;
  let names := field_names items in
  if existsb release_dependent names || existsb nested_spec items then Unspecified
  else Ret {| template := t; input_variables := list_to_set names |}.

(** [pt.format(name=value, ...)] *)
Definition format (pt : PromptTemplate) (kwargs : gmap text pyval) : result text :=
  vformat (template pt) kwargs.

(** ** The template registry of [Agent.create_prompt_template] *)

(** The [Cardiologist] entry (U+2019 is the apostrophe of its third line). *)
Definition cardiologist_template : text := join_lines [
  [];
  txt "                    Act like a cardiologist. You will receive a medical report of a patient.";
  txt "                    Task: Review the patient's cardiac workup, including ECG, blood tests, Holter monitor results, and echocardiogram.";
  txt "                    Focus: Determine if there are any subtle signs of cardiac issues that could explain the patient" ++ [8217] ++ txt "s symptoms. Rule out any underlying heart conditions, such as arrhythmias or structural abnormalities, that might be missed on routine testing.";
  txt "                    Recommendation: Provide guidance on any further cardiac testing or monitoring needed to ensure there are no hidden heart-related concerns. Suggest potential management strategies if a cardiac issue is identified.";
  txt "                    Please only return the possible causes of the patient's symptoms and the recommended next steps.";
  txt "                    Medical Report: {medical_report}";
  txt "                "
].

(** The [Psychologist] entry. *)
Definition psychologist_template : text := join_lines [
  [];
  txt "                    Act like a psychologist. You will receive a patient's report.";
  txt "                    Task: Review the patient's report and provide a psychological assessment.";
  txt "                    Focus: Identify any potential mental health issues, such as anxiety, depression, or trauma, that may be affecting the patient's well-being.";
  txt "                    Recommendation: Offer guidance on how to address these mental health concerns, including therapy, counseling, or other interventions.";
  txt "                    Please only return the possible mental health issues and the recommended next steps.";
  txt "                    Patient's Report: {medical_report}";
  txt "                "
].

(** The [Pulmonologist] entry. *)
Definition pulmonologist_template : text := join_lines [
  [];
  txt "                    Act like a pulmonologist. You will receive a patient's report.";
  txt "                    Task: Review the patient's report and provide a pulmonary assessment.";
  txt "                    Focus: Identify any potential respiratory issues, such as asthma, COPD, or lung infections, that may be affecting the patient's breathing.";
  txt "                    Recommendation: Offer guidance on how to address these respiratory concerns, including pulmonary function tests, imaging studies, or other interventions.";
  txt "                    Please only return the possible respiratory issues and the recommended next steps.";
  txt "                    Patient's Report: {medical_report}";
  txt "                "
].

(** The f-string of the [MultidisciplinaryTeam] branch, the three
    interpolated values already converted with [str()]. *)
Definition team_template (cardiologist_report psychologist_report pulmonologist_report : text) : text :=
  join_lines [
  [];
  txt "                Act like a multidisciplinary team of healthcare professionals.";
  txt "                You will receive a medical report of a patient visited by a Cardiologist, Psychologist, and Pulmonologist.";
  txt "                Task: Review the patient's medical report from the Cardiologist, Psychologist, and Pulmonologist, analyze them and come up with a list of 3 possible health issues of the patient.";
  txt "                Just return a list of bullet points of 3 possible health issues of the patient and for each issue provide the reason.";
  txt "                ";
  txt "                Cardiologist Report: " ++ cardiologist_report;
  txt "                Psychologist Report: " ++ psychologist_report;
  txt "                Pulmonologist Report: " ++ pulmonologist_report;
  txt "            "
].

(** The dictionary literal of the [else] branch. *)
Definition specialist_templates : gmap text text :=
  <[txt "Cardiologist" := cardiologist_template]>
  (<[txt "Psychologist" := psychologist_template]>
  (<[txt "Pulmonologist" := pulmonologist_template]> ∅)).

(** The placeholder of the specialist templates, and the text of a
    specialist template before and after it (the placeholder is followed
    by a line break and sixteen spaces). *)
Definition placeholder : text := txt "{medical_report}".

Definition before_placeholder (r : text) : text :=
  match specialist_templates !! r with
  | Some t => take (length t - 33) t
  | None => []
  end.

Definition after_placeholder (r : text) : text :=
  match specialist_templates !! r with
  | Some t => drop (length t - 17) t
  | None => []
  end.

(** The role names with an entry in the dictionary, and all the role
    names [create_prompt_template] knows. *)
Definition specialist_roles : list text :=
  [txt "Cardiologist"; txt "Psychologist"; txt "Pulmonologist"].

Definition recognized_roles : list text :=
  specialist_roles ++ [txt "MultidisciplinaryTeam"].

(** [v == s] for a string literal [s]. *)
Definition str_eq (v : pyval) (s : text) : bool :=
  match v with
  | PStr s' => bool_decide (s' = s)
  | _ => false
  end.

(** [d[k]] on a dictionary with string keys: a list is not hashable,
    anything else that is not a key is a [KeyError]. *)
Definition dict_getitem (d : gmap text text) (k : pyval) : result text :=
  match k with
  | PStr s =>
      match d !! s with
      | Some v => Ret v
      | None => Raise (KeyError k)
      end
  | PList _ _ => Raise TypeError
  | _ => Raise (KeyError k)
  end.

(** [d.get(k, dflt)] where [d] is a dictionary or [None]. *)
Definition dict_get (d : option (gmap text pyval)) (k : text) (dflt : pyval) : result pyval :=
  match d with
  | Some m => Ret (default dflt (m !! k))
  | None => Raise (AttributeError (txt "get"))
  end.

(** [Agent.create_prompt_template], reading [self.role] and
    [self.extra_info]. *)
Definition create_prompt_template (role : pyval) (extra_info : option (gmap text pyval))
  : result PromptTemplate :=
  if str_eq role (txt "MultidisciplinaryTeam") then
    cardiologist_report ← dict_get extra_info (txt "cardiologist_report") (PStr []);
    psychologist_report ← dict_get extra_info (txt "psychologist_report") (PStr []);
    pulmonologist_report ← dict_get extra_info (txt "pulmonologist_report") (PStr []);
    let templates := team_template (py_str cardiologist_report)
                                   (py_str psychologist_report)
                                   (py_str pulmonologist_report) in
    from_template templates
  else
    templates ← dict_getitem specialist_templates role;
    from_template templates.

(** ** The class [Agent] *)

(** The handle returned by [OpenAI(base_url=..., api_key=...)]. *)
Record OpenAI := {
  base_url : text;
  api_key : text;
}.

Record Agent := {
  medical_report : pyval;
  role : pyval;
  extra_info : option (gmap text pyval);
  prompt_template : PromptTemplate;
  client : OpenAI;
}.

Definition no_api_key_message (openrouter_present openai_present : bool) : text :=
  txt "No API key found. Environment presence: OPENROUTER_API_KEY="
  ++ bool_str openrouter_present ++ txt ", OPENAI_API_KEY=" ++ bool_str openai_present ++ txt ". "
  ++ txt "Please set OPENROUTER_API_KEY or OPENAI_API_KEY environment variable (do not paste the key into code).".

Definition default_model : text := txt "openai/gpt-oss-20b:free".

Section Process.
(** The process environment, the encoding declared by the standard
    output stream ([None] when it declares none) and the remote
    completion service. *)
Context (environ : gmap text text).
Context (stdout_encoding : option Codec).
Context (service : request -> result pyval).

(** [os.getenv(name)] *)
Definition getenv (name : text) : option text := environ !! name.

(** [os.getenv(name, dflt)] *)
Definition getenv_default (name dflt : text) : text := default dflt (environ !! name).

(** [Agent.__init__] *)
Definition Agent_init (medical_report role : pyval)
    (extra_info : option (gmap text pyval)) : result Agent :=
  prompt_template ← create_prompt_template role extra_info;
  let openrouter_present := truthy (getenv (txt "OPENROUTER_API_KEY")) in
  let openai_present := truthy (getenv (txt "OPENAI_API_KEY")) in
  let api_key := py_or (getenv (txt "OPENROUTER_API_KEY")) (getenv (txt "OPENAI_API_KEY")) in
  if negb (truthy api_key) then
    Raise (RuntimeError (no_api_key_message openrouter_present openai_present))
  else
    Ret {| medical_report := medical_report;
           role := role;
           extra_info := extra_info;
           prompt_template := prompt_template;
           client := {| base_url := txt "https://openrouter.ai/api/v1";
                        api_key := default [] api_key |} |}.

(** [client.chat.completions.create(model=..., messages=...)]: the
    request goes out and the service answers with a response object or
    with an exception. *)
Definition chat_completions_create (client : OpenAI) (model : text)
    (messages : list (text * text)) : M pyval := fun w =>
  let req := Request (base_url client) (api_key client) model messages in
  (service req, World (stdout w) (sent w ++ [req])).

(** [completion.choices[0].message.content] *)
Definition primary_field (completion : pyval) : result pyval :=
  choices ← getattr completion (txt "choices");
  choice ← getitem choices 0;
  message ← getattr choice (txt "message");
  getattr message (txt "content").

(** [completion.choices[0].text] *)
Definition secondary_field (completion : pyval) : result pyval :=
  choices ← getattr completion (txt "choices");
  choice ← getitem choices 0;
  getattr choice (txt "text").

(** The reply text of a response (the nested [try] blocks of [run]). *)
Definition extract_content (completion : pyval) : result pyval :=
  try_catch (primary_field completion)
    (fun _ =>
       try_catch (secondary_field completion)
         (fun _ => Ret (PStr (py_str completion)))).

(** [sys.stdout.encoding or 'utf-8'] *)
Definition target_codec : Codec := default utf_8 stdout_encoding.

(** The output sanitizer (the last [try] block of [run]). *)
Definition sanitize (content : pyval) : result pyval :=
  try_catch
    (_ ← py_encode target_codec Strict content;
     Ret content)
    (fun _ =>
       safe ← py_encode target_codec Replace content;
       let safe := decode_replace target_codec safe in
       Ret (PStr safe)).

(** [Agent.run] on a standard output that takes every text (one that
    declares no encoding or has the replace handler, such as the wrapper
    the start-up code falls back to).  [run_on] below is [Agent.run] on
    any stream and agrees with [run] on those. *)
Definition run (self : Agent) : M pyval :=
  print [PrStr (py_str (role self) ++ txt " is running...")];;
  prompt ← lift (format (prompt_template self)
                        {[ txt "medical_report" := medical_report self ]});
  try_except
    (let model := getenv_default (txt "OPENROUTER_MODEL") default_model in
     completion ← chat_completions_create (client self) model [(txt "user", prompt)];
     content ← lift (extract_content completion);
     lift (sanitize content))
    (fun e =>
       print [PrStr (txt "Error occurred:"); PrExn e];;
       mret PNone).

(** *** The specialised agent classes *)

Definition Cardiologist (medical_report : pyval) : result Agent :=
  Agent_init medical_report (PStr (txt "Cardiologist")) None.

Definition Psychologist (medical_report : pyval) : result Agent :=
  Agent_init medical_report (PStr (txt "Psychologist")) None.

Definition Pulmonologist (medical_report : pyval) : result Agent :=
  Agent_init medical_report (PStr (txt "Pulmonologist")) None.

Definition MultidisciplinaryTeam
    (cardiologist_report psychologist_report pulmonologist_report : pyval)
    : result Agent :=
  let extra_info : gmap text pyval :=
    <[txt "cardiologist_report" := cardiologist_report]>
    (<[txt "psychologist_report" := psychologist_report]>
    (<[txt "pulmonologist_report" := pulmonologist_report]> ∅)) in
  Agent_init PNone (PStr (txt "MultidisciplinaryTeam")) (Some extra_info).
End Process.


(** ** Sample processes

    Environments, services and responses used to run the definitions on
    concrete inputs. *)

Module Sample.
(** Only the fallback key is set. *)
Definition fallback_only : gmap text text :=
  <[txt "OPENAI_API_KEY" := txt "sk-fallback"]> ∅.

(** Both keys are set, to distinguishable values. *)
Definition both_keys : gmap text text :=
  <[txt "OPENROUTER_API_KEY" := txt "sk-or-preferred"]>
  (<[txt "OPENAI_API_KEY" := txt "sk-fallback"]> ∅).

(** Both keys are set, the preferred one to the empty string (as an
    unfilled line of an environment file leaves it). *)
Definition preferred_empty : gmap text text :=
  <[txt "OPENROUTER_API_KEY" := []]>
  (<[txt "OPENAI_API_KEY" := txt "sk-fallback"]> ∅).

(** The fallback key with a model override. *)
Definition with_model : gmap text text :=
  <[txt "OPENROUTER_MODEL" := txt "meta-llama/llama-3-8b"]> fallback_only.

(** A service that cannot be reached. *)
Definition unreachable (_ : request) : result pyval :=
  Raise (ClientError APIConnectionError (txt "Connection error.")).

(** A response object with the given attributes. *)
Definition obj (attrs : list (text * pyval)) (shown : text) : pyval :=
  PObj (list_to_map attrs) shown.

(** A chat completion in the usual shape. *)
Definition chat_reply (content : pyval) : pyval :=
  obj [(txt "choices",
        PList [obj [(txt "message", obj [(txt "content", content)] (txt "ChatCompletionMessage(...)"))]
                   (txt "Choice(...)")]
              (txt "[Choice(...)]"))]
      (txt "ChatCompletion(...)").

(** A completion in the legacy shape: the choice has [text] only. *)
Definition legacy_reply (content : pyval) : pyval :=
  obj [(txt "choices",
        PList [obj [(txt "text", content)] (txt "CompletionChoice(...)")]
              (txt "[CompletionChoice(...)]"))]
      (txt "Completion(...)").

(** A response with neither field. *)
Definition bare_reply : pyval := obj [(txt "error", PStr (txt "overloaded"))] (txt "{'error': 'overloaded'}").

Definition answering (reply : pyval) (_ : request) : result pyval := Ret reply.

Definition fresh : world := World [] [].
End Sample.

(** ** Module start-up

    Both modules begin by making the standard output ready for UTF-8, and
    [Agents.py] first reads the environment file next to the package. *)

(** What the start-up code can observe of [sys.stdout]: the encoding it
    declares, its error handler, whether [reconfigure(encoding=...)]
    returns and whether it has a [buffer] a text wrapper can be put
    around. *)
Record stdout_stream := {
  s_encoding : option Codec;
  s_errors : errors;
  s_reconfigure : bool;
  s_buffer : bool;
}.

(** [sys.stdout.reconfigure(encoding='utf-8')]: the error handler is
    reset to strict, as no handler is passed along. *)
Definition reconfigure (s : stdout_stream) : result stdout_stream :=
  if s_reconfigure s then
    Ret {| s_encoding := Some utf_8; s_errors := Strict;
           s_reconfigure := true; s_buffer := s_buffer s |}
  else Raise (AttributeError (txt "reconfigure")).

(** [io.TextIOWrapper(sys.stdout.buffer, encoding='utf-8', errors='replace')] *)
Definition wrap_buffer (s : stdout_stream) : result stdout_stream :=
  if s_buffer s then
    Ret {| s_encoding := Some utf_8; s_errors := Replace;
           s_reconfigure := true; s_buffer := true |}
  else Raise (AttributeError (txt "buffer")).

(** The nested [try] blocks at the top of both modules; the value is the
    stream [sys.stdout] is bound to afterwards. *)
Definition configure_stdout (s : stdout_stream) : result stdout_stream :=
  try_catch (reconfigure s)
    (fun _ => try_catch (wrap_buffer s) (fun _ => Ret s)).

(** [load_dotenv(env_path)]: the entries of the file are added to the
    environment, a variable that is already there keeping its value. *)
Definition load_dotenv (env_file environ : gmap text text) : gmap text text :=
  environ ∪ env_file.

(** The first [try] block of [Agents.py]: nothing is loaded when the
    package [dotenv] is not installed or the file does not exist. *)
Definition load_environment_file (dotenv_installed : bool)
    (env_file : option (gmap text text)) (environ : gmap text text) : gmap text text :=
  if dotenv_installed then
    match env_file with
    | Some entries => load_dotenv entries environ
    | None => environ
    end
  else environ.

(** ** [print] on a stream

    [print] converts each argument to text and writes the pieces to the
    stream one after the other: the arguments, a space between two of
    them, the line end.  A stream with an encoding encodes each piece as
    it is written, and with the strict handler that raises
    [UnicodeEncodeError] for a text the encoding lacks a code point of;
    the pieces written before stay written. *)

(** [str(e)] for the exceptions that carry their message. *)
Definition exn_text (e : exn) : option text :=
  match e with
  | ValueError msg => Some msg
  | RuntimeError msg => Some msg
  | ClientError _ msg => Some msg
  | _ => None
  end.

(** The text of one printed argument, where the model has it. *)
Definition printed_text (a : printed) : option text :=
  match a with
  | PrStr s => Some s
  | PrExn e => exn_text e
  end.

(** A stream that takes every text: it declares no encoding, or has the
    replace handler and an encoding with ['?'] in it. *)
Definition lenient (s : stdout_stream) : bool :=
  match s_encoding s with
  | None => true
  | Some cd =>
      match s_errors s with
      | Replace => encodable cd qmark
      | Strict => false
      end
  end.

(** Writing one piece.  The text of an exception that does not carry its
    message is not modelled; on a stream that may refuse a text, neither
    is the outcome. *)
Definition can_write (s : stdout_stream) (a : printed) : result unit :=
  if lenient s then Ret tt
  else
    match s_encoding s, printed_text a with
    | Some cd, Some t => encode_text cd (s_errors s) t ≫= fun _ => Ret tt
    | Some cd, None => Unspecified
    | None, _ => Ret tt
    end.

(** The pieces of a [print] call, each with whether it is an argument
    (and shows in the output entry) or a separator. *)
Fixpoint line_pieces (first : bool) (args : list printed) : list (printed * bool) :=
  match args with
  | [] => [(PrStr [10], false)]
  | a :: rest =>
      (if first then [] else [(PrStr [32], false)])
      ++ (a, true) :: line_pieces false rest
  end.

(** The arguments among the pieces. *)
Fixpoint shown_args (pieces : list (printed * bool)) : list printed :=
  match pieces with
  | [] => []
  | (a, true) :: rest => a :: shown_args rest
  | (_, false) :: rest => shown_args rest
  end.

(** The pieces are written in order; when one is refused, the exception
    is raised with the arguments written so far left in the output. *)
Fixpoint write_pieces (s : stdout_stream) (written : list printed)
    (pieces : list (printed * bool)) : M unit :=
  match pieces with
  | [] => print written
  | (a, shown) :: rest => fun w =>
      match can_write s a with
      | Ret _ => write_pieces s (if shown then written ++ [a] else written) rest w
      | Raise e =>
          (Raise e,
           match written with
           | [] => w
           | _ => World (stdout w ++ [written]) (sent w)
           end)
      | Unspecified => (Unspecified, w)
      end
  end.

(** [print(a, b, ...)] on the stream [s]. *)
Definition print_on (s : stdout_stream) (args : list printed) : M unit :=
  write_pieces s [] (line_pieces true args).

(** The stream takes every piece of the line. *)
Definition accepts (s : stdout_stream) (args : list printed) : Prop :=
  Forall (fun piece => can_write s (fst piece) = Ret tt) (line_pieces true args).

Section ProcessOnStream.
Context (environ : gmap text text).
Context (stream : stdout_stream).
Context (service : request -> result pyval).

(** [Agent.run] with [sys.stdout] bound to [stream]: the two [print]
    calls go through the stream, and the sanitizer reads its encoding. *)
Definition run_on (self : Agent) : M pyval :=
  print_on stream [PrStr (py_str (role self) ++ txt " is running...")];;
  prompt ← lift (format (prompt_template self)
                        {[ txt "medical_report" := medical_report self ]});
  try_except
    (let model := getenv_default environ (txt "OPENROUTER_MODEL") default_model in
     completion ← chat_completions_create service (client self) model [(txt "user", prompt)];
     content ← lift (extract_content completion);
     lift (sanitize (s_encoding stream) content))
    (fun e =>
       print_on stream [PrStr (txt "Error occurred:"); PrExn e];;
       mret PNone).
End ProcessOnStream.

(** ** The script [open_router.py] *)

(** [isinstance(e, UnicodeEncodeError)] *)
Definition is_UnicodeEncodeError (e : exn) : bool :=
  match e with
  | UnicodeEncodeError _ => true
  | _ => false
  end.

(** [try: body / except UnicodeEncodeError: handler] *)
Definition try_except_encode {A} (body handler : M A) : M A := fun w =>
  match body w with
  | (Raise e, w') => if is_UnicodeEncodeError e then handler w' else (Raise e, w')
  | r => r
  end.

(** [print(v)] on a stream: the text of [v] goes through the encoder of
    the stream, which raises before anything is written; a stream that
    declares no encoding does not encode. *)
Definition print_to (s : stdout_stream) (v : pyval) : M unit :=
  match s_encoding s with
  | Some cd => lift (encode_text cd (s_errors s) (py_str v));; print [PrStr (py_str v)]
  | None => print [PrStr (py_str v)]
  end.

(** [OpenAI(base_url=..., api_key=...)]: a key that is a string is taken
    as it is; what the client library does for [None] is not modelled.
    Releases of the client differ on the empty string, which some refuse
    in the constructor; it is followed here as by a release that takes
    it. *)
Definition OpenAI_new (base_url : text) (api_key : option text) : result OpenAI :=
  match api_key with
  | Some key => Ret {| base_url := base_url; api_key := key |}
  | None => Unspecified
  end.

Definition the_question : text := txt "What is the meaning of life?".

Section Script.
Context (environ : gmap text text).
Context (service : request -> result pyval).

(** The whole script, started with [sys.stdout] bound to [s0]. *)
Definition open_router_main (s0 : stdout_stream) : M unit :=
  s ← lift (configure_stdout s0);
  client ← lift (OpenAI_new (txt "https://openrouter.ai/api/v1")
                            (getenv environ (txt "OPENROUTER_API_KEY")));
  completion ← chat_completions_create service client (txt "openai/gpt-oss-20b:free")
                 [(txt "user", the_question)];
  content ← lift (primary_field completion);
  try_except_encode
    (print_to s content)
    (safe ← lift (py_encode (target_codec (s_encoding s)) Replace content);
     print_to s (PStr (decode_replace (target_codec (s_encoding s)) safe))).
End Script.

(** ** More sample processes *)

Module Fixture.
(** An ordinary text stream on a Windows console. *)
Definition console : stdout_stream :=
  {| s_encoding := Some cp1252; s_errors := Strict;
     s_reconfigure := true; s_buffer := true |}.


(** Only the preferred key is set. *)
Definition preferred_only : gmap text text :=
  <[txt "OPENROUTER_API_KEY" := txt "sk-or-preferred"]> ∅.

(** The process environment exports an empty preferred key. *)
Definition exported_empty : gmap text text :=
  <[txt "OPENROUTER_API_KEY" := []]> ∅.

(** An environment file with both keys. *)
Definition env_file : gmap text text :=
  <[txt "OPENROUTER_API_KEY" := txt "sk-or-from-file"]>
  (<[txt "OPENAI_API_KEY" := txt "sk-from-file"]> ∅).

(** The user interrupts the process while the request is pending. *)
Definition interrupted (_ : request) : result pyval := Raise KeyboardInterrupt.



(** An environment file with the preferred key only. *)
Definition file_preferred_only : gmap text text :=
  <[txt "OPENROUTER_API_KEY" := txt "sk-or-from-file"]> ∅.

(** A response whose list of choices is empty. *)
Definition no_choices : pyval :=
  Sample.obj [(txt "choices", PList [] (txt "[]"))] (txt "ChatCompletion(choices=[])").
End Fixture.

(** * Properties *)

(** ** The definitions on concrete inputs *)

Example utf8_encode_latin : utf8_encode_cp 0xE9 = Some [0xC3; 0xA9].
Proof. reflexivity. Qed.

Example utf8_encode_euro : utf8_encode_cp 0x20AC = Some [0xE2; 0x82; 0xAC].
Proof. reflexivity. Qed.

Example utf8_encode_emoji : utf8_encode_cp 0x1F600 = Some [0xF0; 0x9F; 0x98; 0x80].
Proof. reflexivity. Qed.

Example utf8_encode_surrogate : utf8_encode_cp 0xD800 = None.
Proof. reflexivity. Qed.

Example utf8_decode_valid :
  decode_replace utf_8 [0x61; 0xC3; 0xA9; 0xE2; 0x82; 0xAC; 0xF0; 0x9F; 0x98; 0x80]
  = [0x61; 0xE9; 0x20AC; 0x1F600].
Proof. reflexivity. Qed.

(** A stray byte, an overlong form, an encoded surrogate and a truncated
    sequence all decode to U+FFFD. *)
Example utf8_decode_invalid :
  decode_replace utf_8 [0xFF; 0x61] = [0xFFFD; 0x61]
  /\ decode_replace utf_8 [0xC0; 0x80] = [0xFFFD; 0xFFFD]
  /\ decode_replace utf_8 [0xED; 0xA0; 0x80] = [0xFFFD; 0xFFFD; 0xFFFD]
  /\ decode_replace utf_8 [0xE2; 0x82] = [0xFFFD]
  /\ decode_replace utf_8 [0xE2; 0x82; 0x61] = [0xFFFD; 0x61].
Proof. repeat split; reflexivity. Qed.

Example encode_replace_ascii :
  encode_text us_ascii Replace [99; 97; 102; 233] = Ret [99; 97; 102; 63]
  /\ encode_text us_ascii Strict [99; 97; 102; 233] = Raise (UnicodeEncodeError (txt "ascii")).
Proof. split; reflexivity. Qed.

Example parse_escapes :
  formatter_parse (txt "a{{b}}c") = Ret [(txt "a{", None); (txt "b}", None); (txt "c", None)].
Proof. reflexivity. Qed.

Example parse_field :
  formatter_parse (txt "x={x!r:>{w}}.")
  = Ret [(txt "x=", Some (Field (txt "x") (Some (chr "r")) (txt ">{w}"))); (txt ".", None)].
Proof. reflexivity. Qed.

Example parse_errors :
  formatter_parse (txt "a}") = Raise (ValueError (txt "Single '}' encountered in format string"))
  /\ formatter_parse (txt "a{") = Raise (ValueError (txt "Single '{' encountered in format string"))
  /\ formatter_parse (txt "{a") = Raise (ValueError (txt "expected '}' before end of string")).
Proof. repeat split; reflexivity. Qed.

Example vformat_cases :
  let kwargs : gmap text pyval := {[ txt "medical_report" := PNone ]} in
  vformat (txt "Report: {medical_report}!") kwargs = Ret (txt "Report: None!")
  /\ vformat (txt "{{{medical_report}}}") kwargs = Ret (txt "{None}")
  /\ vformat (txt "{other}") kwargs = Raise (KeyError (PStr (txt "other")))
  /\ vformat (txt "{} and {0}") kwargs = Raise IndexError
  /\ vformat (txt "{other} }") kwargs = Raise (KeyError (PStr (txt "other")))
  /\ vformat (txt "no fields") kwargs = Ret (txt "no fields").
Proof. repeat split; reflexivity. Qed.

Example template_lengths :
  length cardiologist_template = 908%nat
  /\ length psychologist_template = 667%nat
  /\ length pulmonologist_template = 681%nat.
Proof. repeat split; reflexivity. Qed.

(** ** The result monad *)

Lemma result_bind_ret {A B} (a : A) (f : A -> result B) : (Ret a ≫= f) = f a.
Proof. reflexivity. Qed.

Lemma try_catch_ret {A} (a : A) (h : exn -> result A) : try_catch (Ret a) h = Ret a.
Proof. reflexivity. Qed.

Lemma try_catch_raise {A} (e : exn) (h : exn -> result A) :
  is_Exception e = true -> try_catch (Raise e) h = h e.
Proof. intros He. unfold try_catch. now rewrite He. Qed.

(** ** Codecs *)

Section CodecFacts.
Variable cd : Codec.

(** Strict encoding succeeds exactly on the texts made of encodable
    code points, and otherwise raises [UnicodeEncodeError]. *)
Lemma encode_strict_ok (s : text) :
  forallb (encodable cd) s = true -> exists bs, encode_text cd Strict s = Ret bs.
Proof.
  induction s as [|c s IH]; simpl; intros H.
  - now exists [].
  - apply andb_prop in H as [Hc Hs]. destruct (IH Hs) as [bs Hbs].
    unfold encodable in Hc. destruct (encode_cp cd c) as [b|]; [|discriminate].
    rewrite Hbs. now exists (b ++ bs).
Qed.

Lemma encode_strict_fail (s : text) :
  forallb (encodable cd) s = false ->
  encode_text cd Strict s = Raise (UnicodeEncodeError (codec_name cd)).
Proof.
  induction s as [|c s IH]; simpl; intros H; [discriminate|].
  unfold encodable in H at 1. destruct (encode_cp cd c) as [b|]; [|reflexivity].
  simpl in H. now rewrite (IH H).
Qed.


Hypothesis qmark_ok : encodable cd qmark = true.

Lemma scrub_encodable (c : N) : encodable cd (scrub cd c) = true.
Proof. unfold scrub. destruct (encodable cd c) eqn:E; [exact E | exact qmark_ok]. Qed.

Lemma scrub_all_encodable (s : text) : forallb (encodable cd) (map (scrub cd) s) = true.
Proof.
  induction s as [|c s IH]; [reflexivity|]. simpl.
  now rewrite scrub_encodable, IH.
Qed.

Lemma scrub_id (s : text) : forallb (encodable cd) s = true -> map (scrub cd) s = s.
Proof.
  induction s as [|c s IH]; [reflexivity|]. simpl. intros H.
  apply andb_prop in H as [Hc Hs]. unfold scrub at 1. now rewrite Hc, (IH Hs).
Qed.

(** Encoding with ['replace'] is strict encoding of the scrubbed text. *)
Lemma encode_replace_scrub (s : text) :
  encode_text cd Replace s = encode_text cd Strict (map (scrub cd) s).
Proof.
  induction s as [|c s IH]; [reflexivity|]. simpl.
  unfold scrub at 1, encodable at 1.
  destruct (encode_cp cd c) as [b|] eqn:Ec.
  - rewrite Ec, IH. reflexivity.
  - unfold encodable in qmark_ok.
    destruct (encode_cp cd qmark) as [q|]; [|discriminate].
    rewrite IH. reflexivity.
Qed.
End CodecFacts.

(** *** UTF-8 round trip *)

Ltac arith := zify; Z.to_euclidean_division_equations; lia.

Ltac decide_test :=
  match goal with
  | |- context [N.ltb ?a ?b] => destruct (N.ltb_spec a b); try (exfalso; arith)
  | |- context [N.leb ?a ?b] => destruct (N.leb_spec a b); try (exfalso; arith)
  | |- context [N.eqb ?a ?b] => destruct (N.eqb_spec a b); try (exfalso; arith)
  end.

Ltac utf8_byte :=
  cbn [app utf8_decode_from];
  unfold utf8_step at 1; cbn [u_needed u_cp u_lower u_upper utf8_idle];
  unfold utf8_lead, between;
  repeat (decide_test; cbn [andb]);
  cbn [u_needed u_cp u_lower u_upper utf8_idle app].

Lemma utf8_decode_cp (c : N) (bs rest : bytes) :
  utf8_encode_cp c = Some bs ->
  utf8_decode_from utf8_idle (bs ++ rest) = c :: utf8_decode_from utf8_idle rest.
Proof.
  unfold utf8_encode_cp, is_surrogate.
  destruct (N.ltb_spec c 0x80).
  { intros [= <-]. utf8_byte. reflexivity. }
  destruct (N.ltb_spec c 0x800).
  { intros [= <-]. do 2 utf8_byte. f_equal. arith. }
  destruct (N.ltb_spec c 0x10000).
  { destruct (N.leb_spec 0xD800 c), (N.leb_spec c 0xDFFF); cbn [andb];
      try discriminate; intros [= <-]; do 3 utf8_byte; f_equal; arith. }
  destruct (N.ltb_spec c 0x110000); [|discriminate].
  intros [= <-]. do 4 utf8_byte; f_equal; arith.
Qed.

Lemma utf8_decode_encode (s : text) (bs : bytes) :
  encode_text utf_8 Strict s = Ret bs -> utf8_decode_from utf8_idle bs = s.
Proof.
  revert bs. induction s as [|c s IH]; intros bs; simpl.
  - now intros [= <-].
  - destruct (utf8_encode_cp c) as [b|] eqn:Ec; [|discriminate].
    destruct (encode_text utf_8 Strict s) as [tail| |]; try discriminate.
    intros [= <-]. rewrite (utf8_decode_cp c b tail Ec). now rewrite (IH tail).
Qed.

#[global] Instance utf_8_laws : CodecLaws utf_8.
Proof. split; [reflexivity | exact utf8_decode_encode]. Qed.

#[global] Instance us_ascii_laws : CodecLaws us_ascii.
Proof.
  split; [reflexivity|].
  intros s. induction s as [|c s IH]; intros bs; simpl.
  - now intros [= <-].
  - destruct (N.ltb_spec c 0x80); [|discriminate].
    destruct (encode_text us_ascii Strict s) as [tail| |]; try discriminate.
    intros [= <-]. simpl. destruct (N.ltb_spec c 0x80); [|lia].
    f_equal. now apply IH.
Qed.

#[global] Instance latin_1_laws : CodecLaws latin_1.
Proof.
  split; [reflexivity|].
  intros s. induction s as [|c s IH]; intros bs; simpl.
  - now intros [= <-].
  - destruct (N.ltb_spec c 0x100); [|discriminate].
    destruct (encode_text latin_1 Strict s) as [tail| |]; try discriminate.
    intros [= <-]. simpl. f_equal. now apply IH.
Qed.

Lemma charmap_decode_encode (name : text) (table : list (option N)) (s : text) (bs : bytes) :
  encode_text (charmap name table) Strict s = Ret bs ->
  decode_replace (charmap name table) bs = s.
Proof.
  revert bs. induction s as [|c s IH]; intros bs; cbn [encode_text].
  - now intros [= <-].
  - cbn [encode_cp charmap].
    destruct (list_find (fun entry => entry = Some c) table) as [[i entry]|] eqn:Hfind;
      cbn [fmap option_fmap option_map]; [|discriminate].
    destruct (encode_text (charmap name table) Strict s) as [tail| |]; try discriminate.
    intros [= <-]. apply list_find_Some in Hfind as (Hi & -> & _).
    cbn [decode_replace charmap app map fst]. rewrite Nat2N.id, Hi. cbn.
    f_equal. now apply IH.
Qed.

(** A code page containing ['?'] satisfies the laws. *)
Lemma charmap_laws (name : text) (table : list (option N)) :
  encodable (charmap name table) qmark = true -> CodecLaws (charmap name table).
Proof. intros Hq. split; [exact Hq | apply charmap_decode_encode]. Qed.

#[global] Instance cp1252_laws : CodecLaws cp1252.
Proof. apply charmap_laws. reflexivity. Qed.

Example cp1252_cases :
  encode_cp cp1252 0x2019 = Some [0x92]
  /\ encode_cp cp1252 0xE9 = Some [0xE9]
  /\ encode_cp cp1252 0x2192 = None
  /\ encode_cp cp1252 0x81 = None
  /\ decode_replace cp1252 [0x80; 0x81; 0x41] = [0x20AC; 0xFFFD; 0x41].
Proof. repeat split; reflexivity. Qed.

(** A lone surrogate is the only kind of code point of a [str] that UTF-8
    cannot encode. *)
Lemma utf8_encodable_iff (c : N) :
  encodable utf_8 c = true <-> c < 0x110000 /\ is_surrogate c = false.
Proof.
  unfold encodable, utf_8, encode_cp, utf8_encode_cp, is_surrogate.
  repeat (decide_test; cbn [andb]);
    (split; [intros Hc; first [discriminate Hc | split; [lia | reflexivity]]
            | intros [Hlt Hs]; first [reflexivity | discriminate Hs | exfalso; lia]]).
Qed.

(** ** The sanitizer *)

Section SanitizerFacts.
Variable stdout_encoding : option Codec.
Let cd := target_codec stdout_encoding.
Context {laws : CodecLaws cd}.

Lemma sanitize_clean (s : text) :
  forallb (encodable cd) s = true ->
  sanitize stdout_encoding (PStr s) = Ret (PStr s).
Proof.
  intros H. destruct (encode_strict_ok cd s H) as [bs Hbs].
  unfold sanitize, py_encode. fold cd. now rewrite Hbs.
Qed.

Lemma sanitize_scrubs (s : text) :
  sanitize stdout_encoding (PStr s) = Ret (PStr (map (scrub cd) s)).
Proof.
  destruct (forallb (encodable cd) s) eqn:E.
  - rewrite (scrub_id cd s E). now apply sanitize_clean.
  - unfold sanitize, py_encode. fold cd.
    rewrite (encode_strict_fail cd s E). cbn [mbind result_bind try_catch is_Exception].
    rewrite (encode_replace_scrub cd qmark_encodable).
    destruct (encode_strict_ok cd (map (scrub cd) s)) as [bs Hbs].
    { apply scrub_all_encodable, qmark_encodable. }
    rewrite Hbs. cbn [mbind result_bind].
    now rewrite (decode_encode _ _ Hbs).
Qed.
End SanitizerFacts.

(** ** Format strings *)

Lemma result_bind_ret_r {A} (m : result A) : (x ← m; Ret x) = m.
Proof. now destruct m. Qed.

Lemma brace_free_app (s t : text) :
  brace_free (s ++ t) = brace_free s && brace_free t.
Proof. apply forallb_app. Qed.

Lemma brace_free_cons (c : N) (s : text) :
  brace_free (c :: s) = negb (is_brace c) && brace_free s.
Proof. reflexivity. Qed.

Lemma scan_step_literal (lit : text) (c : N) :
  is_brace c = false -> scan_step (InLiteral lit) c = Ret ([], InLiteral (lit ++ [c])).
Proof.
  unfold is_brace, scan_step. intros H. apply orb_false_elim in H as [H1 H2].
  change (chr "{") with 123. change (chr "}") with 125. now rewrite H1, H2.
Qed.

(** A run without braces only extends the pending literal. *)
Lemma scan_text_literal (s lit : text) :
  brace_free s = true -> scan_text (InLiteral lit) s = Ret ([], InLiteral (lit ++ s)).
Proof.
  revert lit. induction s as [|c s IH]; intros lit H.
  - cbn. now rewrite app_nil_r.
  - rewrite brace_free_cons in H. apply andb_prop in H as [Hc Hs].
    apply negb_true_iff in Hc.
    cbn [scan_text]. rewrite (scan_step_literal lit c Hc).
    cbn [mbind result_bind]. rewrite (IH _ Hs). cbn.
    now rewrite <- app_assoc.
Qed.

Lemma scan_text_app (s t : text) (st st1 st2 : scan) (out1 out2 : list item) :
  scan_text st s = Ret (out1, st1) ->
  scan_text st1 t = Ret (out2, st2) ->
  scan_text st (s ++ t) = Ret (out1 ++ out2, st2).
Proof.
  revert st out1. induction s as [|c s IH]; intros st out1 Hs Ht.
  - cbn in Hs. injection Hs as <- <-. exact Ht.
  - cbn [app scan_text] in *.
    destruct (scan_step st c) as [[o sa]| |]; try discriminate. cbn in *.
    destruct (scan_text sa s) as [[o' sb]| |] eqn:E; try discriminate. cbn in Hs.
    injection Hs as <- <-. rewrite (IH sa o' E Ht). cbn.
    now rewrite app_assoc.
Qed.

Lemma parse_from_scan (s rest : text) (st st' : scan) (items : list item) :
  scan_text st s = Ret (items, st') ->
  parse_from st (s ++ rest) = (tail ← parse_from st' rest; Ret (items ++ tail)).
Proof.
  revert st items. induction s as [|c s IH]; intros st items H.
  - cbn in H. injection H as <- <-. cbn. now rewrite result_bind_ret_r.
  - cbn [app scan_text parse_from] in *.
    destruct (scan_step st c) as [[o sa]| |]; try discriminate. cbn in *.
    destruct (scan_text sa s) as [[o' sb]| |] eqn:E; try discriminate. cbn in H.
    injection H as <- <-. rewrite (IH sa o' E).
    destruct (parse_from sb rest); cbn; try reflexivity.
    now rewrite app_assoc.
Qed.

Section FormatFacts.
Variable kwargs : gmap text pyval.

Lemma render_items_app (xs ys : list item) :
  render_items kwargs (xs ++ ys)
  = (a ← render_items kwargs xs; b ← render_items kwargs ys; Ret (a ++ b)).
Proof.
  induction xs as [|[lit fld] xs IH]; cbn [app render_items].
  - cbn. now rewrite result_bind_ret_r.
  - destruct (match fld with Some f => render_field kwargs f | None => Ret [] end);
      cbn; try reflexivity.
    rewrite IH. destruct (render_items kwargs xs); cbn; try reflexivity.
    destruct (render_items kwargs ys); cbn; try reflexivity.
    now rewrite <- !app_assoc.
Qed.

(** Formatting commutes with cutting the template after a prefix the
    scan gets through. *)
Lemma vformat_from_scan (s rest : text) (st st' : scan) (items : list item) :
  scan_text st s = Ret (items, st') ->
  vformat_from kwargs st (s ++ rest)
  = (head ← render_items kwargs items;
     tail ← vformat_from kwargs st' rest;
     Ret (head ++ tail)).
Proof.
  revert st items. induction s as [|c s IH]; intros st items H.
  - cbn in H. injection H as <- <-. cbn. now rewrite result_bind_ret_r.
  - cbn [app scan_text vformat_from] in *.
    destruct (scan_step st c) as [[o sa]| |]; try discriminate. cbn in *.
    destruct (scan_text sa s) as [[o' sb]| |] eqn:E; try discriminate. cbn in H.
    injection H as <- <-. rewrite (IH sa o' E), render_items_app.
    destruct (render_items kwargs o); cbn; try reflexivity.
    destruct (render_items kwargs o'); cbn; try reflexivity.
    destruct (vformat_from kwargs sb rest); cbn; try reflexivity.
    now rewrite app_assoc.
Qed.

Lemma vformat_end (lit : text) : vformat_from kwargs (InLiteral lit) [] = Ret lit.
Proof. destruct lit; cbn; [reflexivity|]. now rewrite app_nil_r. Qed.

(** A template without braces is rendered as it is. *)
Lemma vformat_brace_free (s : text) :
  brace_free s = true -> vformat s kwargs = Ret s.
Proof.
  intros H. unfold vformat. rewrite <- (app_nil_r s) at 1.
  rewrite (vformat_from_scan s [] _ _ _ (scan_text_literal s [] H)).
  cbn [render_items mbind result_bind app]. now rewrite vformat_end.
Qed.

(** The placeholder of the specialist templates. *)
Lemma render_medical_report (v : pyval) :
  kwargs !! txt "medical_report" = Some v ->
  render_field kwargs (Field (txt "medical_report") None []) = Ret (py_str v).
Proof.
  intros Hv. unfold render_field. cbn [field_name conversion format_spec].
  change (first_part (txt "medical_report")) with (txt "medical_report").
  now rewrite Hv.
Qed.

Lemma scan_medical_report (lit : text) :
  scan_text (InLiteral lit) (txt "{medical_report}")
  = Ret ([(lit, Some (Field (txt "medical_report") None []))], InLiteral []).
Proof. reflexivity. Qed.

Lemma scan_one_placeholder (pre : text) :
  brace_free pre = true ->
  scan_text (InLiteral []) (pre ++ txt "{medical_report}")
  = Ret ([(pre, Some (Field (txt "medical_report") None []))], InLiteral []).
Proof.
  intros Hpre.
  apply (scan_text_app pre _ _ _ _ [] _ (scan_text_literal pre [] Hpre)).
  apply scan_medical_report.
Qed.

Lemma vformat_one_placeholder (v : pyval) (pre post : text) :
  kwargs !! txt "medical_report" = Some v ->
  brace_free pre = true -> brace_free post = true ->
  vformat (pre ++ txt "{medical_report}" ++ post) kwargs
  = Ret (pre ++ py_str v ++ post).
Proof.
  intros Hv Hpre Hpost. unfold vformat. rewrite app_assoc.
  rewrite (vformat_from_scan _ post _ _ _ (scan_one_placeholder pre Hpre)).
  cbn [render_items]. rewrite (render_medical_report v Hv).
  change (vformat_from kwargs (InLiteral []) post) with (vformat post kwargs).
  rewrite (vformat_brace_free post Hpost). cbn.
  now rewrite app_nil_r, <- app_assoc.
Qed.
End FormatFacts.

(** A template without braces has no variables. *)
Lemma from_template_brace_free (t : text) :
  brace_free t = true ->
  from_template t = Ret {| template := t; input_variables := ∅ |}.
Proof.
  intros H. unfold from_template, formatter_parse.
  rewrite <- (app_nil_r t) at 1.
  rewrite (parse_from_scan t [] _ _ _ (scan_text_literal t [] H)).
  cbn [app parse_from scan_end]. now destruct t.
Qed.

(** A template with the one placeholder has the one variable. *)
Lemma from_template_one_placeholder (pre post : text) :
  brace_free pre = true -> brace_free post = true ->
  from_template (pre ++ txt "{medical_report}" ++ post)
  = Ret {| template := pre ++ txt "{medical_report}" ++ post;
           input_variables := {[ txt "medical_report" ]} |}.
Proof.
  intros Hpre Hpost. unfold from_template, formatter_parse.
  rewrite app_assoc.
  rewrite (parse_from_scan _ post _ _ _ (scan_one_placeholder pre Hpre)).
  rewrite <- (app_nil_r post) at 1.
  rewrite (parse_from_scan post [] _ _ _ (scan_text_literal post [] Hpost)).
  rewrite <- app_assoc.
  destruct post; cbn [app parse_from scan_end mbind result_bind field_names omap];
    cbn; f_equal; f_equal; apply set_eq; intros x; set_solver.
Qed.

(** ** The template registry *)

Lemma specialist_template_shape (r : text) :
  In r specialist_roles ->
  specialist_templates !! r
  = Some (before_placeholder r ++ placeholder ++ after_placeholder r)
  /\ brace_free (before_placeholder r) = true
  /\ brace_free (after_placeholder r) = true.
Proof.
  intros [<- | [<- | [<- | []]]]; repeat split; vm_compute; reflexivity.
Qed.

Lemma specialist_not_team (r : text) :
  In r specialist_roles -> str_eq (PStr r) (txt "MultidisciplinaryTeam") = false.
Proof. intros [<- | [<- | [<- | []]]]; reflexivity. Qed.

Lemma create_specialist_template (r : text) (extra_info : option (gmap text pyval)) :
  In r specialist_roles ->
  create_prompt_template (PStr r) extra_info
  = Ret {| template := before_placeholder r ++ placeholder ++ after_placeholder r;
           input_variables := {[ txt "medical_report" ]} |}.
Proof.
  intros Hr. destruct (specialist_template_shape r Hr) as (Ht & Hpre & Hpost).
  unfold create_prompt_template. rewrite (specialist_not_team r Hr).
  unfold dict_getitem. rewrite Ht. cbn [mbind result_bind].
  now apply from_template_one_placeholder.
Qed.

Lemma specialist_templates_keys (s : text) :
  is_Some (specialist_templates !! s) -> In s specialist_roles.
Proof.
  unfold specialist_templates, specialist_roles. intros [t Ht].
  repeat (apply lookup_insert_Some in Ht as [[<- _] | [_ Ht]]; [cbn; tauto|]).
  now rewrite lookup_empty in Ht.
Qed.

(** ** Substrings *)

Lemma contains_middle (pre s post : text) : contains (pre ++ s ++ post) s.
Proof. now exists pre, post. Qed.

Lemma contains_app_r (s t needle : text) : contains t needle -> contains (s ++ t) needle.
Proof. intros (pre & post & ->). exists (s ++ pre), post. now rewrite <- app_assoc. Qed.

Lemma contains_app_l (s t needle : text) : contains s needle -> contains (s ++ t) needle.
Proof.
  intros (pre & post & ->). exists pre, (post ++ t). now rewrite <- !app_assoc.
Qed.

Lemma contains_cons (c : N) (t needle : text) : contains t needle -> contains (c :: t) needle.
Proof. apply (contains_app_r [c]). Qed.

Lemma contains_suffix (s needle : text) : contains (s ++ needle) needle.
Proof. exists s, []. now rewrite app_nil_r. Qed.

Create HintDb substring.
#[local] Hint Resolve contains_suffix contains_app_l contains_app_r contains_cons : substring.

Lemma team_template_contains (c p q : text) :
  contains (team_template c p q) c
  /\ contains (team_template c p q) p
  /\ contains (team_template c p q) q.
Proof.
  unfold team_template. cbn [join_lines]. repeat split; eauto 20 with substring.
Qed.

Lemma team_template_brace_free (c p q : text) :
  brace_free c = true -> brace_free p = true -> brace_free q = true ->
  brace_free (team_template c p q) = true.
Proof.
  intros Hc Hp Hq. unfold team_template. cbn [join_lines].
  repeat (rewrite brace_free_app || rewrite brace_free_cons).
  rewrite Hc, Hp, Hq. vm_compute. reflexivity.
Qed.

(** ** [Agent.run] *)

Section RunFacts.
Variable environ : gmap text text.
Variable stdout_encoding : option Codec.
Variable service : request -> result pyval.

(** The request [run] issues for a rendered prompt. *)
Let request_for (self : Agent) (prompt : text) : request :=
  Request (base_url (client self)) (api_key (client self))
          (getenv_default environ (txt "OPENROUTER_MODEL") default_model)
          [(txt "user", prompt)].

Let running_line (self : Agent) : list printed :=
  [PrStr (py_str (role self) ++ txt " is running...")].

(** [run] after its first two statements, for a prompt that renders. *)
Lemma run_rendered (self : Agent) (w : world) (prompt : text) :
  format (prompt_template self) {[ txt "medical_report" := medical_report self ]}
  = Ret prompt ->
  run environ stdout_encoding service self w
  = let w1 := World (stdout w ++ [running_line self]) (sent w ++ [request_for self prompt]) in
    match service (request_for self prompt) with
    | Ret completion =>
        match extract_content completion ≫= sanitize stdout_encoding with
        | Ret v => (Ret v, w1)
        | Raise e =>
            if is_Exception e
            then (Ret PNone,
                  World (stdout w1 ++ [[PrStr (txt "Error occurred:"); PrExn e]]) (sent w1))
            else (Raise e, w1)
        | Unspecified => (Unspecified, w1)
        end
    | Raise e =>
        if is_Exception e
        then (Ret PNone,
              World (stdout w1 ++ [[PrStr (txt "Error occurred:"); PrExn e]]) (sent w1))
        else (Raise e, w1)
    | Unspecified => (Unspecified, w1)
    end.
Proof.
  intros Hp. unfold run, mbind, M_bind, print, lift, try_except.
  rewrite Hp. unfold chat_completions_create. cbn [stdout sent].
  fold (request_for self prompt).
  destruct (service (request_for self prompt)) as [completion|e|]; try reflexivity.
  unfold result_bind.
  destruct (extract_content completion) as [content|e|]; reflexivity.
Qed.
End RunFacts.

(** Every failure of the completion client is an [Exception]. *)
Lemma client_error_is_Exception (kind : api_failure) (msg : text) :
  is_Exception (ClientError kind msg) = true.
Proof. reflexivity. Qed.

(** *** [print] on a stream *)

Lemma shown_line_pieces (first : bool) (args : list printed) :
  shown_args (line_pieces first args) = args.
Proof.
  revert first. induction args as [|a args IH]; intros first; [reflexivity|].
  cbn [line_pieces]. destruct first; cbn [app shown_args]; now rewrite IH.
Qed.

Lemma write_pieces_accepted (s : stdout_stream) (written : list printed)
    (pieces : list (printed * bool)) (w : world) :
  Forall (fun piece => can_write s (fst piece) = Ret tt) pieces ->
  write_pieces s written pieces w = print (written ++ shown_args pieces) w.
Proof.
  intros H. revert written. induction H as [|[a shown] pieces Ha _ IH]; intros written.
  - cbn. now rewrite app_nil_r.
  - cbn [write_pieces shown_args]. cbn [fst] in Ha. rewrite Ha, IH.
    destruct shown; [|reflexivity]. now rewrite <- app_assoc.
Qed.

(** A line the stream accepts is printed as [print] prints it. *)
Lemma print_on_accepted (s : stdout_stream) (args : list printed) (w : world) :
  accepts s args -> print_on s args w = print args w.
Proof.
  intros H. unfold print_on. rewrite (write_pieces_accepted s [] _ w H).
  now rewrite shown_line_pieces.
Qed.

Lemma lenient_accepts (s : stdout_stream) (args : list printed) :
  lenient s = true -> accepts s args.
Proof.
  intros H. apply Forall_forall. intros piece _. unfold can_write. now rewrite H.
Qed.

(** *** [Agent.run] on a stream *)

Section RunOnFacts.
Variable environ : gmap text text.
Variable stream : stdout_stream.
Variable service : request -> result pyval.

Let request_for (self : Agent) (prompt : text) : request :=
  Request (base_url (client self)) (api_key (client self))
          (getenv_default environ (txt "OPENROUTER_MODEL") default_model)
          [(txt "user", prompt)].

Let running_line (self : Agent) : list printed :=
  [PrStr (py_str (role self) ++ txt " is running...")].

Let error_line (e : exn) : list printed :=
  [PrStr (txt "Error occurred:"); PrExn e].

Let report (e : exn) : M pyval :=
  print_on stream (error_line e);; mret PNone.

(** [run_on] after its first two statements, when the stream takes the
    line naming the role and the prompt renders. *)
Lemma run_on_rendered (self : Agent) (w : world) (prompt : text) :
  accepts stream (running_line self) ->
  format (prompt_template self) {[ txt "medical_report" := medical_report self ]}
  = Ret prompt ->
  run_on environ stream service self w
  = let w1 := World (stdout w ++ [running_line self]) (sent w ++ [request_for self prompt]) in
    match service (request_for self prompt) with
    | Ret completion =>
        match extract_content completion ≫= sanitize (s_encoding stream) with
        | Ret v => (Ret v, w1)
        | Raise e => if is_Exception e then report e w1 else (Raise e, w1)
        | Unspecified => (Unspecified, w1)
        end
    | Raise e => if is_Exception e then report e w1 else (Raise e, w1)
    | Unspecified => (Unspecified, w1)
    end.
Proof.
  intros Hline Hp. unfold running_line in Hline.
  unfold report, error_line, run_on, mbind, M_bind, lift, try_except.
  rewrite (print_on_accepted stream _ w Hline). unfold print at 1.
  rewrite Hp. unfold chat_completions_create. cbn [stdout sent].
  fold (request_for self prompt). cbv zeta.
  destruct (service (request_for self prompt)) as [completion|e|]; try reflexivity.
  unfold result_bind.
  destruct (extract_content completion) as [content|e|]; reflexivity.
Qed.

(** On a stream that takes every text, [run_on] is [run]. *)
Lemma run_on_lenient (self : Agent) (w : world) :
  lenient stream = true ->
  run_on environ stream service self w = run environ (s_encoding stream) service self w.
Proof.
  intros Hl.
  assert (Hprint : forall args w', print_on stream args w' = print args w')
    by (intros; apply print_on_accepted, lenient_accepts, Hl).
  destruct (format (prompt_template self)
              {[ txt "medical_report" := medical_report self ]}) as [prompt|e|] eqn:Hp.
  - rewrite (run_on_rendered self w prompt (lenient_accepts _ _ Hl) Hp).
    rewrite (run_rendered _ _ _ _ _ _ Hp). cbv zeta.
    fold (request_for self prompt).
    destruct (service (request_for self prompt)) as [completion|e|]; try reflexivity.
    + destruct (extract_content completion ≫= sanitize (s_encoding stream)) as [v|e|];
        try reflexivity.
      destruct (is_Exception e); [|reflexivity].
      unfold report, mbind, M_bind. now rewrite Hprint.
    + destruct (is_Exception e); [|reflexivity].
      unfold report, mbind, M_bind. now rewrite Hprint.
  - unfold run_on, run, mbind, M_bind, lift. now rewrite Hprint, Hp.
  - unfold run_on, run, mbind, M_bind, lift. now rewrite Hprint, Hp.
Qed.

End RunOnFacts.



(** ** The output sanitizer *)



(** C9.  The sanitizer is idempotent: what it returns for a text is a
    text it returns unchanged; and a text the encoding can represent in
    full is itself returned unchanged. *)
Theorem C9_sanitize_idempotent (stdout_encoding : option Codec)
    (laws : CodecLaws (target_codec stdout_encoding)) (s : text) :
  exists s',
    sanitize stdout_encoding (PStr s) = Ret (PStr s')
    /\ (sanitize stdout_encoding (PStr s) ≫= sanitize stdout_encoding) = Ret (PStr s')
    /\ (forallb (encodable (target_codec stdout_encoding)) s = true -> s' = s).
Proof.
  exists (map (scrub (target_codec stdout_encoding)) s).
  split; [exact (sanitize_scrubs stdout_encoding s)|]. split.
  - rewrite (sanitize_scrubs stdout_encoding s). cbn [mbind result_bind].
    apply sanitize_clean, scrub_all_encodable, qmark_encodable.
  - apply scrub_id.
Qed.

Lemma C9_sanitize_idempotent_witness :
  exists s',
    sanitize (Some us_ascii) (PStr [99; 97; 102; 233]) = Ret (PStr s')
    /\ (sanitize (Some us_ascii) (PStr [99; 97; 102; 233]) ≫= sanitize (Some us_ascii))
       = Ret (PStr s')
    /\ (forallb (encodable (target_codec (Some us_ascii))) [99; 97; 102; 233] = true ->
        s' = [99; 97; 102; 233]).
Proof. exact (C9_sanitize_idempotent (Some us_ascii) us_ascii_laws [99; 97; 102; 233]). Defined.

(** On a Windows-1252 console the typographic apostrophe passes and the
    arrow does not. *)
Example sanitize_cp1252 :
  sanitize (Some cp1252) (PStr [0x2019; 0x2192; 0x41]) = Ret (PStr [0x2019; 63; 0x41]).
Proof. reflexivity. Qed.

(** What is not a text cannot be sanitized: the step raises, and [run]
    turns that into its absent result. *)
Lemma sanitize_not_text (stdout_encoding : option Codec) (v : pyval) :
  (forall s, v <> PStr s) ->
  sanitize stdout_encoding v = Raise (AttributeError (txt "encode")).
Proof. intros H. destruct v; try reflexivity. now destruct (H s). Qed.

(** ** Reply-text extraction *)

Lemma getattr_outcome (v : pyval) (name : text) :
  (exists x, getattr v name = Ret x) \/ getattr v name = Raise (AttributeError name).
Proof.
  destruct v as [| | |attrs shown]; cbn; try (now right).
  destruct (attrs !! name); [left; eauto | now right].
Qed.

Lemma getitem_outcome (v : pyval) (i : nat) :
  (exists x, getitem v i = Ret x) \/ (exists e, getitem v i = Raise e /\ is_Exception e = true).
Proof.
  destruct v as [|s|items shown|]; cbn.
  - right; eauto.
  - destruct (s !! i); [left | right]; eauto.
  - destruct (items !! i); [left | right]; eauto.
  - right; eauto.
Qed.

(** The two field accesses either give a value or raise an [Exception]. *)
Lemma primary_field_outcome (completion : pyval) :
  (exists v, primary_field completion = Ret v)
  \/ (exists e, primary_field completion = Raise e /\ is_Exception e = true).
Proof.
  unfold primary_field.
  destruct (getattr_outcome completion (txt "choices")) as [[choices ->] | ->];
    [|right; eauto].
  cbn [mbind result_bind].
  destruct (getitem_outcome choices 0) as [[choice ->] | (e & -> & He)]; [|right; eauto].
  cbn [mbind result_bind].
  destruct (getattr_outcome choice (txt "message")) as [[message ->] | ->];
    [|right; eauto].
  cbn [mbind result_bind].
  destruct (getattr_outcome message (txt "content")) as [[content ->] | ->];
    [left | right]; eauto.
Qed.

Lemma secondary_field_outcome (completion : pyval) :
  (exists v, secondary_field completion = Ret v)
  \/ (exists e, secondary_field completion = Raise e /\ is_Exception e = true).
Proof.
  unfold secondary_field.
  destruct (getattr_outcome completion (txt "choices")) as [[choices ->] | ->];
    [|right; eauto].
  cbn [mbind result_bind].
  destruct (getitem_outcome choices 0) as [[choice ->] | (e & -> & He)]; [|right; eauto].
  cbn [mbind result_bind].
  destruct (getattr_outcome choice (txt "text")) as [[content ->] | ->];
    [left | right]; eauto.
Qed.

(** C5.  Reply-text extraction tries three sources in order: the value
    of [completion.choices[0].message.content] whenever that access
    returns; otherwise the value of [completion.choices[0].text] when
    that access returns; otherwise the string form of the whole response.
    It always yields a value. *)
Theorem C5_extract_content_tiers (completion : pyval) :
  let primary :=
    getattr completion (txt "choices") ≫= fun choices =>
    getitem choices 0 ≫= fun choice =>
    getattr choice (txt "message") ≫= fun message =>
    getattr message (txt "content") in
  let secondary :=
    getattr completion (txt "choices") ≫= fun choices =>
    getitem choices 0 ≫= fun choice =>
    getattr choice (txt "text") in
  (forall content, primary = Ret content -> extract_content completion = Ret content)
  /\ (forall content,
        (forall v, primary <> Ret v) -> secondary = Ret content ->
        extract_content completion = Ret content)
  /\ ((forall v, primary <> Ret v) -> (forall v, secondary <> Ret v) ->
      extract_content completion = Ret (PStr (py_str completion)))
  /\ exists content, extract_content completion = Ret content.
Proof.
  intros primary secondary.
  change primary with (primary_field completion).
  change secondary with (secondary_field completion).
  unfold extract_content.
  destruct (primary_field_outcome completion) as [[v Hv] | (e & Hv & He)]; rewrite Hv.
  { repeat split.
    - now intros content [= <-].
    - intros content Hno. now destruct (Hno v).
    - intros Hno. now destruct (Hno v).
    - now exists v. }
  rewrite (try_catch_raise _ _ He).
  destruct (secondary_field_outcome completion) as [[v' Hv'] | (e' & Hv' & He')];
    rewrite Hv'.
  { repeat split.
    - discriminate.
    - now intros content _ [= <-].
    - intros _ Hno. now destruct (Hno v').
    - now exists v'. }
  rewrite (try_catch_raise _ _ He'). repeat split; try discriminate; eauto.
Qed.

Lemma C5_extract_content_tiers_witness :
  extract_content (Sample.chat_reply (PStr (txt "Possible asthma.")))
  = Ret (PStr (txt "Possible asthma."))
  /\ extract_content (Sample.legacy_reply (PStr (txt "Possible asthma.")))
     = Ret (PStr (txt "Possible asthma."))
  /\ extract_content Sample.bare_reply = Ret (PStr (txt "{'error': 'overloaded'}")).
Proof.
  split; [|split].
  - apply (proj1 (C5_extract_content_tiers
                    (Sample.chat_reply (PStr (txt "Possible asthma."))))).
    reflexivity.
  - apply (proj1 (proj2 (C5_extract_content_tiers
                           (Sample.legacy_reply (PStr (txt "Possible asthma.")))))).
    + intros v. vm_compute. discriminate.
    + reflexivity.
  - apply (proj1 (proj2 (proj2 (C5_extract_content_tiers Sample.bare_reply))));
      intros v; vm_compute; discriminate.
Defined.

(** The three simulated responses: the primary field only, the secondary
    field only, neither. *)
Example extract_primary (content : pyval) :
  extract_content (Sample.chat_reply content) = Ret content.
Proof. reflexivity. Qed.

Example extract_secondary (content : pyval) :
  extract_content (Sample.legacy_reply content) = Ret content.
Proof. reflexivity. Qed.

Example extract_fallback :
  extract_content Sample.bare_reply = Ret (PStr (txt "{'error': 'overloaded'}")).
Proof. reflexivity. Qed.

(** ** Rendering the prompts *)

(** C6.  For each specialist role and every subject text, the role's
    template is built and rendering it with the subject text gives the
    subject text verbatim between two fixed texts without braces: the
    prompt contains the subject, and no placeholder of the template is
    left in it. *)
Theorem C6_specialist_prompt_renders (r subject : text)
    (extra_info : option (gmap text pyval)) :
  In r specialist_roles ->
  exists pt pre post,
    create_prompt_template (PStr r) extra_info = Ret pt
    /\ format pt {[ txt "medical_report" := PStr subject ]} = Ret (pre ++ subject ++ post)
    /\ brace_free pre = true
    /\ brace_free post = true
    /\ contains (pre ++ subject ++ post) subject.
Proof.
  intros Hr. destruct (specialist_template_shape r Hr) as (_ & Hpre & Hpost).
  eexists _, (before_placeholder r), (after_placeholder r).
  split; [apply (create_specialist_template r extra_info Hr)|].
  split; [|split; [exact Hpre | split; [exact Hpost | apply contains_middle]]].
  unfold format. cbn [template].
  apply (vformat_one_placeholder _ (PStr subject)); [|exact Hpre | exact Hpost].
  apply lookup_singleton_eq.
Qed.

Lemma C6_specialist_prompt_renders_witness :
  exists pt pre post,
    create_prompt_template (PStr (txt "Psychologist")) None = Ret pt
    /\ format pt {[ txt "medical_report" := PStr (txt "Sleeps 3h; mentions {stress}") ]}
       = Ret (pre ++ txt "Sleeps 3h; mentions {stress}" ++ post)
    /\ brace_free pre = true
    /\ brace_free post = true
    /\ contains (pre ++ txt "Sleeps 3h; mentions {stress}" ++ post)
                (txt "Sleeps 3h; mentions {stress}").
Proof.
  apply (C6_specialist_prompt_renders (txt "Psychologist")
           (txt "Sleeps 3h; mentions {stress}") None).
  simpl. tauto.
Defined.

(** The aggregator, when no report has a brace in it: the template is the
    interpolated text and it renders to itself, whatever is passed to
    [format]; it contains the three reports, an absent one counting as
    the empty string. *)
Lemma team_prompt_renders (m : gmap text pyval) (kwargs : gmap text pyval) :
  let report (k : text) := py_str (default (PStr []) (m !! k)) in
  let c := report (txt "cardiologist_report") in
  let p := report (txt "psychologist_report") in
  let q := report (txt "pulmonologist_report") in
  brace_free c = true -> brace_free p = true -> brace_free q = true ->
  exists pt,
    create_prompt_template (PStr (txt "MultidisciplinaryTeam")) (Some m) = Ret pt
    /\ format pt kwargs = Ret (team_template c p q)
    /\ brace_free (team_template c p q) = true
    /\ contains (team_template c p q) c
    /\ contains (team_template c p q) p
    /\ contains (team_template c p q) q.
Proof.
  intros report c p q Hc Hp Hq.
  pose proof (team_template_brace_free c p q Hc Hp Hq) as Hfree.
  exists {| template := team_template c p q; input_variables := ∅ |}.
  split; [|split; [|split; [exact Hfree | apply team_template_contains]]].
  - unfold create_prompt_template.
    change (str_eq _ _) with true. cbn [dict_get mbind result_bind].
    now apply from_template_brace_free.
  - unfold format. cbn [template]. now apply vformat_brace_free.
Qed.

(** C4, at a failing input.  A report with a placeholder-like token in
    it: the agent is constructed, the token has become a variable of its
    template, and [run] raises [KeyError] for it before any request is
    sent.  A report with one unmatched brace: construction itself raises.
    A report with doubled braces: the prompt is rendered, without the
    report in it. *)
Theorem C4_team_prompt_with_braces :
  (exists self,
     MultidisciplinaryTeam Sample.fallback_only
       (PStr (txt "Likely {arrhythmia}")) (PStr (txt "anxiety")) (PStr [])
     = Ret self
     /\ input_variables (prompt_template self) = {[ txt "arrhythmia" ]}
     /\ forall stdout_encoding service w,
          run Sample.fallback_only stdout_encoding service self w
          = (Raise (KeyError (PStr (txt "arrhythmia"))),
             World (stdout w ++ [[PrStr (txt "MultidisciplinaryTeam is running...")]])
                   (sent w)))
  /\ (exists msg,
        MultidisciplinaryTeam Sample.fallback_only
          (PStr (txt "QT interval {")) (PStr (txt "anxiety")) (PStr [])
        = Raise (ValueError msg))
  /\ (exists self,
        MultidisciplinaryTeam Sample.fallback_only
          (PStr (txt "{{a}}")) (PStr []) (PStr [])
        = Ret self
        /\ format (prompt_template self) {[ txt "medical_report" := PNone ]}
           = Ret (team_template (txt "{a}") [] [])).
Proof.
  split; [|split].
  - eexists. split; [vm_compute; reflexivity|]. split; [vm_compute; reflexivity|].
    intros stdout_encoding service w. reflexivity.
  - eexists. vm_compute. reflexivity.
  - eexists. split; vm_compute; reflexivity.
Qed.

(** ** The request *)

(** C7.  [run] issues one request, and its model identifier is the value
    of [OPENROUTER_MODEL] when the variable is set and
    [openai/gpt-oss-20b:free] when it is not. *)
Theorem C7_request_model (environ : gmap text text) (stdout_encoding : option Codec)
    (service : request -> result pyval) (self : Agent) (w : world) (prompt : text) :
  format (prompt_template self) {[ txt "medical_report" := medical_report self ]}
  = Ret prompt ->
  exists req,
    sent (snd (run environ stdout_encoding service self w)) = sent w ++ [req]
    /\ req_messages req = [(txt "user", prompt)]
    /\ req_model req = match environ !! txt "OPENROUTER_MODEL" with
                       | Some model => model
                       | None => txt "openai/gpt-oss-20b:free"
                       end.
Proof.
  intros Hp.
  exists (Request (base_url (client self)) (api_key (client self))
                  (getenv_default environ (txt "OPENROUTER_MODEL") default_model)
                  [(txt "user", prompt)]).
  split; [|split; [reflexivity|]].
  - rewrite (run_rendered _ _ _ _ _ _ Hp). cbv zeta.
    destruct (service _) as [completion|e|]; [| |reflexivity].
    + destruct (extract_content completion ≫= sanitize stdout_encoding) as [v|e|];
        [reflexivity| |reflexivity].
      destruct (is_Exception e); reflexivity.
    + destruct (is_Exception e); reflexivity.
  - cbn [req_model]. unfold getenv_default.
    now destruct (environ !! txt "OPENROUTER_MODEL").
Qed.

Lemma C7_request_model_witness :
  exists self,
    Pulmonologist Sample.with_model (PStr (txt "Chronic cough")) = Ret self
    /\ exists req,
         sent (snd (run Sample.with_model None
                        (Sample.answering (Sample.chat_reply (PStr (txt "Possible asthma."))))
                        self Sample.fresh))
         = [req]
         /\ req_model req = txt "meta-llama/llama-3-8b".
Proof.
  eexists. split; [vm_compute; reflexivity|].
  match goal with
  | |- context [run _ _ _ ?self _] =>
      destruct (C7_request_model Sample.with_model None
                  (Sample.answering (Sample.chat_reply (PStr (txt "Possible asthma."))))
                  self Sample.fresh
                  (before_placeholder (txt "Pulmonologist") ++ txt "Chronic cough"
                   ++ after_placeholder (txt "Pulmonologist")))
        as (req & Hsent & _ & Hmodel)
  end.
  - vm_compute. reflexivity.
  - exists req. split; [exact Hsent | exact Hmodel].
Defined.

(** The end-to-end scenario: the reply of the service is what [run]
    returns. *)
Example run_returns_reply :
  exists self,
    Cardiologist Sample.fallback_only (PStr (txt "Patient reports palpitations")) = Ret self
    /\ fst (run Sample.fallback_only None
              (Sample.answering
                 (Sample.chat_reply (PStr (txt "Possible arrhythmia. Recommend Holter monitor."))))
              self Sample.fresh)
       = Ret (PStr (txt "Possible arrhythmia. Recommend Holter monitor.")).
Proof. eexists. split; vm_compute; reflexivity. Qed.

(** A reply whose content is [None] is not a text: [run] reports the
    error and returns its absent result. *)
Example run_content_none :
  exists self,
    Cardiologist Sample.fallback_only (PStr (txt "Patient reports palpitations")) = Ret self
    /\ fst (run Sample.fallback_only None (Sample.answering (Sample.chat_reply PNone))
              self Sample.fresh)
       = Ret PNone.
Proof. eexists. split; vm_compute; reflexivity. Qed.

(** ** Construction *)

(** C8.  For a role outside the recognized set, construction fails in the
    template lookup (a [KeyError] for the role; a [TypeError] when the
    role is a list, which cannot be a key), whatever the environment; a
    caller that constructs and then runs the agent sends no request and
    prints nothing. *)
Theorem C8_unknown_role_fails (environ : gmap text text) (stdout_encoding : option Codec)
    (service : request -> result pyval) (medical_report role : pyval)
    (extra_info : option (gmap text pyval)) (w : world) :
  (forall r, In r recognized_roles -> role <> PStr r) ->
  let e := match role with PList _ _ => TypeError | _ => KeyError role end in
  create_prompt_template role extra_info = Raise e
  /\ Agent_init environ medical_report role extra_info = Raise e
  /\ (lift (Agent_init environ medical_report role extra_info)
        ≫= run environ stdout_encoding service) w
     = (Raise e, w).
Proof.
  intros Hrole e.
  assert (Ht : create_prompt_template role extra_info = Raise e).
  { unfold create_prompt_template.
    assert (Hteam : str_eq role (txt "MultidisciplinaryTeam") = false).
    { destruct role as [|s| |]; try reflexivity. cbn. apply bool_decide_eq_false.
      intros ->. apply (Hrole (txt "MultidisciplinaryTeam")); [|reflexivity].
      unfold recognized_roles. apply in_or_app. right. now left. }
    rewrite Hteam. subst e. destruct role as [|s| |]; try reflexivity.
    cbn [dict_getitem]. destruct (specialist_templates !! s) eqn:Hs; [|reflexivity].
    exfalso. apply (Hrole s); [|reflexivity].
    unfold recognized_roles. apply in_or_app. left.
    apply specialist_templates_keys. now rewrite Hs. }
  assert (Hi : Agent_init environ medical_report role extra_info = Raise e).
  { unfold Agent_init. now rewrite Ht. }
  split; [exact Ht|]. split; [exact Hi|].
  unfold mbind, M_bind, lift. now rewrite Hi.
Qed.

Lemma C8_unknown_role_fails_witness :
  Agent_init Sample.both_keys (PStr (txt "Rash on both arms")) (PStr (txt "Dermatologist")) None
  = Raise (KeyError (PStr (txt "Dermatologist"))).
Proof.
  refine (proj1 (proj2 (C8_unknown_role_fails Sample.both_keys None Sample.unreachable
                          (PStr (txt "Rash on both arms"))
                          (PStr (txt "Dermatologist")) None Sample.fresh _))).
  intros r Hr. simpl in Hr.
  destruct Hr as [<- | [<- | [<- | [<- | []]]]]; discriminate.
Defined.

(** The default arguments [role=None] give no agent either. *)
Example agent_without_role (environ : gmap text text) :
  Agent_init environ PNone PNone None = Raise (KeyError PNone).
Proof. reflexivity. Qed.

(** C10.  The prompt is rendered before the [try] block: when rendering
    raises, [run] raises the same exception to its caller, whether or not
    an [except Exception] clause would catch it, after printing the line
    naming the role and without sending a request. *)
Theorem C10_run_propagates_render_error (environ : gmap text text)
    (stdout_encoding : option Codec) (service : request -> result pyval)
    (self : Agent) (w : world) (e : exn) :
  format (prompt_template self) {[ txt "medical_report" := medical_report self ]}
  = Raise e ->
  run environ stdout_encoding service self w
  = (Raise e,
     World (stdout w ++ [[PrStr (py_str (role self) ++ txt " is running...")]]) (sent w)).
Proof.
  intros Hp. unfold run, mbind, M_bind, print, lift. now rewrite Hp.
Qed.

Lemma C10_run_propagates_render_error_witness :
  exists self,
    MultidisciplinaryTeam Sample.fallback_only
      (PStr (txt "Likely {arrhythmia}")) (PStr (txt "anxiety")) (PStr (txt "asthma"))
    = Ret self
    /\ is_Exception (KeyError (PStr (txt "arrhythmia"))) = true
    /\ run Sample.fallback_only None Sample.unreachable self Sample.fresh
       = (Raise (KeyError (PStr (txt "arrhythmia"))),
          World [[PrStr (txt "MultidisciplinaryTeam is running...")]] []).
Proof.
  eexists. split; [vm_compute; reflexivity|]. split; [reflexivity|].
  etransitivity.
  - apply (C10_run_propagates_render_error Sample.fallback_only None Sample.unreachable _
             Sample.fresh (KeyError (PStr (txt "arrhythmia")))).
    vm_compute. reflexivity.
  - vm_compute. reflexivity.
Defined.

(** ** Credential resolution *)

(** The statement, read with "set" as "present in the environment", fails
    where the preferred variable is set to the empty string: both
    variables are set, and the key used is the fallback's, not the
    preferred variable's value. *)
Lemma C3_preferred_key_set_but_empty :
  is_Some (Sample.preferred_empty !! txt "OPENROUTER_API_KEY")
  /\ is_Some (Sample.preferred_empty !! txt "OPENAI_API_KEY")
  /\ exists self,
       Cardiologist Sample.preferred_empty (PStr (txt "Patient reports palpitations"))
       = Ret self
       /\ api_key (client self) = txt "sk-fallback"
       /\ Sample.preferred_empty !! txt "OPENROUTER_API_KEY" <> Some (api_key (client self)).
Proof.
  split; [now exists [] |]. split; [now exists (txt "sk-fallback") |].
  eexists. split; [vm_compute; reflexivity|]. split; [reflexivity|].
  vm_compute. discriminate.
Qed.

(** C3, as amended.  Once the template of the role is built, with a
    variable counting as set when its value is not the empty string: if
    neither variable is set, construction raises [RuntimeError] with a
    fixed message that reports both as absent and holds no value of the
    environment; if only [OPENAI_API_KEY] is set, its value is the key of
    the client; if both are set, the value of [OPENROUTER_API_KEY] is. *)
Theorem C3_credential_resolution (environ : gmap text text)
    (medical_report role : pyval) (extra_info : option (gmap text pyval))
    (pt : PromptTemplate) :
  create_prompt_template role extra_info = Ret pt ->
  let openrouter := environ !! txt "OPENROUTER_API_KEY" in
  let openai := environ !! txt "OPENAI_API_KEY" in
  let init := Agent_init environ medical_report role extra_info in
  (truthy openrouter = false -> truthy openai = false ->
     init = Raise (RuntimeError
       (txt "No API key found. Environment presence: OPENROUTER_API_KEY=False, OPENAI_API_KEY=False. Please set OPENROUTER_API_KEY or OPENAI_API_KEY environment variable (do not paste the key into code).")))
  /\ (forall key, truthy openrouter = false -> openai = Some key -> key <> [] ->
        exists self, init = Ret self /\ api_key (client self) = key
                     /\ base_url (client self) = txt "https://openrouter.ai/api/v1")
  /\ (forall key other, openrouter = Some key -> key <> [] ->
        openai = Some other -> other <> [] ->
        exists self, init = Ret self /\ api_key (client self) = key
                     /\ base_url (client self) = txt "https://openrouter.ai/api/v1").
Proof.
  intros Ht openrouter openai init. subst init. unfold Agent_init, getenv.
  rewrite Ht. cbn [mbind result_bind]. fold openrouter openai.
  split; [|split].
  - intros H1 H2. unfold py_or. rewrite H1, H2. reflexivity.
  - intros key H1 H2 Hkey. unfold py_or. rewrite H1, H2.
    destruct key as [|c key]; [congruence|]. cbn. eauto.
  - intros key other H1 Hkey _ _. unfold py_or. rewrite H1.
    destruct key as [|c key]; [congruence|]. cbn. eauto.
Qed.

Lemma C3_credential_resolution_witness :
  (exists self,
     Agent_init Sample.fallback_only (PStr (txt "Chronic cough")) (PStr (txt "Pulmonologist")) None
     = Ret self
     /\ api_key (client self) = txt "sk-fallback")
  /\ (exists self,
        Agent_init Sample.both_keys (PStr (txt "Chronic cough")) (PStr (txt "Pulmonologist")) None
        = Ret self
        /\ api_key (client self) = txt "sk-or-preferred")
  /\ exists msg,
       Agent_init ∅ (PStr (txt "Chronic cough")) (PStr (txt "Pulmonologist")) None
       = Raise (RuntimeError msg).
Proof.
  eassert (Ht : create_prompt_template (PStr (txt "Pulmonologist")) None = Ret _)
    by (vm_compute; reflexivity).
  split; [|split].
  - destruct (C3_credential_resolution Sample.fallback_only (PStr (txt "Chronic cough"))
                _ _ _ Ht) as (_ & Hfallback & _).
    destruct (Hfallback (txt "sk-fallback") eq_refl eq_refl ltac:(discriminate))
      as (self & Hself & Hkey & _).
    exists self. split; [exact Hself | exact Hkey].
  - destruct (C3_credential_resolution Sample.both_keys (PStr (txt "Chronic cough"))
                _ _ _ Ht) as (_ & _ & Hboth).
    destruct (Hboth (txt "sk-or-preferred") (txt "sk-fallback")
                eq_refl ltac:(discriminate) eq_refl ltac:(discriminate))
      as (self & Hself & Hkey & _).
    exists self. split; [exact Hself | exact Hkey].
  - destruct (C3_credential_resolution ∅ (PStr (txt "Chronic cough")) _ _ _ Ht)
      as (Hnone & _ & _).
    eexists. exact (Hnone eq_refl eq_refl).
Defined.

(** * Further properties of the module *)

(** ** Outcomes of the building blocks *)

Lemma encode_text_outcome (cd : Codec) (mode : errors) (s : text) :
  (exists bs, encode_text cd mode s = Ret bs)
  \/ encode_text cd mode s = Raise (UnicodeEncodeError (codec_name cd)).
Proof.
  induction s as [|c s IH]; cbn [encode_text]; [left; eauto|].
  destruct (encode_cp cd c) as [b|].
  - destruct IH as [[bs ->] | ->]; [left | right]; cbn; eauto.
  - destruct mode; [now right|].
    destruct (encode_cp cd qmark) as [q|]; [|now right].
    destruct IH as [[bs ->] | ->]; [left | right]; cbn; eauto.
Qed.

Lemma extract_content_returns (completion : pyval) :
  exists content, extract_content completion = Ret content.
Proof.
  unfold extract_content.
  destruct (primary_field_outcome completion) as [[v ->] | (e & -> & He)]; [eauto|].
  rewrite (try_catch_raise _ _ He).
  destruct (secondary_field_outcome completion) as [[v ->] | (e' & -> & He')]; [eauto|].
  rewrite (try_catch_raise _ _ He'). eauto.
Qed.

(** The sanitizer gives a text or raises an [Exception]. *)
Lemma sanitize_outcome (stdout_encoding : option Codec) (content : pyval) :
  (exists s, sanitize stdout_encoding content = Ret (PStr s))
  \/ (exists e, sanitize stdout_encoding content = Raise e /\ is_Exception e = true).
Proof.
  unfold sanitize.
  destruct content as [|s|items shown|attrs shown]; cbn [py_encode];
    try (right; eexists; split; reflexivity).
  destruct (encode_text_outcome (target_codec stdout_encoding) Strict s) as [[bs ->] | ->].
  { left. now exists s. }
  cbn [mbind result_bind try_catch is_Exception].
  destruct (encode_text_outcome (target_codec stdout_encoding) Replace s) as [[bs ->] | ->].
  - left. eexists. reflexivity.
  - right. eexists. split; reflexivity.
Qed.

(** ** The sanitizer and the console *)

(** X1.  What the sanitizer returns can be encoded strictly in the
    encoding of the standard output: writing it there cannot raise
    [UnicodeEncodeError]. *)
Theorem sanitized_text_is_encodable (stdout_encoding : option Codec)
    (laws : CodecLaws (target_codec stdout_encoding)) (s : text) :
  exists s' bs,
    sanitize stdout_encoding (PStr s) = Ret (PStr s')
    /\ encode_text (target_codec stdout_encoding) Strict s' = Ret bs.
Proof.
  destruct (encode_strict_ok (target_codec stdout_encoding)
              (map (scrub (target_codec stdout_encoding)) s)) as [bs Hbs].
  { apply scrub_all_encodable, qmark_encodable. }
  exists (map (scrub (target_codec stdout_encoding)) s), bs.
  split; [exact (sanitize_scrubs stdout_encoding s) | exact Hbs].
Qed.

Lemma sanitized_text_is_encodable_witness :
  exists s' bs,
    sanitize (Some cp1252) (PStr [0x2192; 0x20AC]) = Ret (PStr s')
    /\ encode_text cp1252 Strict s' = Ret bs.
Proof. exact (sanitized_text_is_encodable (Some cp1252) cp1252_laws [0x2192; 0x20AC]). Defined.

Lemma scrub_utf8 (c : N) :
  c < 0x110000 -> scrub utf_8 c = if is_surrogate c then qmark else c.
Proof.
  intros Hc. unfold scrub. destruct (encodable utf_8 c) eqn:E.
  - apply utf8_encodable_iff in E as [_ ->]. reflexivity.
  - destruct (is_surrogate c) eqn:Es; [reflexivity|].
    assert (encodable utf_8 c = true) as E' by now apply utf8_encodable_iff.
    congruence.
Qed.

(** X2.  When the standard output declares UTF-8 or no encoding, the
    sanitizer changes a string only at its lone surrogates, each of which
    becomes ['?']. *)
Theorem sanitize_utf8_surrogates (stdout_encoding : option Codec) (s : text) :
  stdout_encoding = None \/ stdout_encoding = Some utf_8 ->
  Forall (fun c => c < 0x110000) s ->
  sanitize stdout_encoding (PStr s)
  = Ret (PStr (map (fun c => if is_surrogate c then qmark else c) s)).
Proof.
  intros Henc Hs.
  assert (Hcd : target_codec stdout_encoding = utf_8) by now destruct Henc as [-> | ->].
  assert (laws : CodecLaws (target_codec stdout_encoding))
    by (rewrite Hcd; exact utf_8_laws).
  rewrite (sanitize_scrubs stdout_encoding s), Hcd. do 2 f_equal.
  induction Hs as [|c s Hc Hs IH]; [reflexivity|].
  cbn [map]. now rewrite IH, (scrub_utf8 c Hc).
Qed.

Lemma sanitize_utf8_surrogates_witness :
  sanitize (Some utf_8) (PStr [0x48; 0xD83D; 0x1F600; 0xDFFF; 0xE000])
  = Ret (PStr [0x48; 63; 0x1F600; 63; 0xE000]).
Proof.
  apply (sanitize_utf8_surrogates (Some utf_8) [0x48; 0xD83D; 0x1F600; 0xDFFF; 0xE000]).
  - now right.
  - repeat constructor.
Defined.

(** ** What [run] returns *)

Section RunOutcomes.
Variable environ : gmap text text.
Variable stdout_encoding : option Codec.
Variable service : request -> result pyval.

Let request_for (self : Agent) (prompt : text) : request :=
  Request (base_url (client self)) (api_key (client self))
          (getenv_default environ (txt "OPENROUTER_MODEL") default_model)
          [(txt "user", prompt)].

Let running_line (self : Agent) : list printed :=
  [PrStr (py_str (role self) ++ txt " is running...")].

Let error_line (e : exn) : list printed :=
  [PrStr (txt "Error occurred:"); PrExn e].

(** X3.  When the service answers and the reply text is a string, [run]
    returns that string with every code point the console encoding lacks
    replaced by ['?']; it has printed the line naming the role and
    nothing else, and sent the one request. *)
Theorem run_returns_scrubbed_reply
    (laws : CodecLaws (target_codec stdout_encoding))
    (self : Agent) (w : world) (prompt : text) (completion : pyval) (s : text) :
  format (prompt_template self) {[ txt "medical_report" := medical_report self ]}
  = Ret prompt ->
  service (request_for self prompt) = Ret completion ->
  extract_content completion = Ret (PStr s) ->
  run environ stdout_encoding service self w
  = (Ret (PStr (map (scrub (target_codec stdout_encoding)) s)),
     World (stdout w ++ [running_line self]) (sent w ++ [request_for self prompt])).
Proof.
  intros Hp Hs Hc. rewrite (run_rendered _ _ _ _ _ _ Hp). cbv zeta.
  fold (request_for self prompt). rewrite Hs, Hc. cbn [mbind result_bind].
  now rewrite (sanitize_scrubs stdout_encoding s).
Qed.

(** X4.  When the reply is not a string (a message whose content is
    [None], say), the sanitizer's [encode] call raises [AttributeError]
    twice, the second time out of its own handler; [run] catches it,
    prints it and returns [None]. *)
Theorem run_reply_not_text
    (self : Agent) (w : world) (prompt : text) (completion content : pyval) :
  format (prompt_template self) {[ txt "medical_report" := medical_report self ]}
  = Ret prompt ->
  service (request_for self prompt) = Ret completion ->
  extract_content completion = Ret content ->
  (forall s, content <> PStr s) ->
  run environ stdout_encoding service self w
  = (Ret PNone,
     World (stdout w ++ [running_line self; error_line (AttributeError (txt "encode"))])
           (sent w ++ [request_for self prompt])).
Proof.
  intros Hp Hs Hc Hnot. rewrite (run_rendered _ _ _ _ _ _ Hp). cbv zeta.
  fold (request_for self prompt). rewrite Hs, Hc. cbn [mbind result_bind].
  rewrite (sanitize_not_text stdout_encoding content Hnot).
  cbn [is_Exception stdout sent]. now rewrite <- app_assoc.
Qed.

(** X6.  An exception that is not an [Exception] (a keyboard interrupt, a
    request to exit) raised while the request is pending is not caught:
    [run] raises it, and prints no error line. *)
Theorem run_does_not_catch_interrupts
    (self : Agent) (w : world) (prompt : text) (e : exn) :
  format (prompt_template self) {[ txt "medical_report" := medical_report self ]}
  = Ret prompt ->
  service (request_for self prompt) = Raise e ->
  is_Exception e = false ->
  run environ stdout_encoding service self w
  = (Raise e,
     World (stdout w ++ [running_line self]) (sent w ++ [request_for self prompt])).
Proof.
  intros Hp Hs He. rewrite (run_rendered _ _ _ _ _ _ Hp). cbv zeta.
  fold (request_for self prompt). now rewrite Hs, He.
Qed.

(** X5.  Whenever [run] returns, it returns a string or [None]: a string
    after printing the line naming the role only, [None] after printing
    that line and the line of an error it caught. *)
Theorem run_result_shape (self : Agent) (w w' : world) (v : pyval) :
  run environ stdout_encoding service self w = (Ret v, w') ->
  (exists s, v = PStr s /\ stdout w' = stdout w ++ [running_line self])
  \/ (v = PNone
      /\ exists e, is_Exception e = true
                   /\ stdout w' = stdout w ++ [running_line self; error_line e]).
Proof.
  destruct (format (prompt_template self)
              {[ txt "medical_report" := medical_report self ]}) as [prompt|e|] eqn:Hp.
  2: { unfold run, mbind, M_bind, print, lift. rewrite Hp. discriminate. }
  2: { unfold run, mbind, M_bind, print, lift. rewrite Hp. discriminate. }
  rewrite (run_rendered _ _ _ _ _ _ Hp). cbv zeta.
  destruct (service _) as [completion|e|]; [| |discriminate].
  - destruct (extract_content_returns completion) as [content ->]. cbn [mbind result_bind].
    destruct (sanitize_outcome stdout_encoding content) as [[s ->] | (e & -> & He)].
    + intros [= <- <-]. left. now exists s.
    + rewrite He. intros [= <- <-]. right. split; [reflexivity|].
      exists e. split; [exact He|]. cbn [stdout]. now rewrite <- app_assoc.
  - destruct (is_Exception e) eqn:He; [|discriminate].
    intros [= <- <-]. right. split; [reflexivity|].
    exists e. split; [exact He|]. cbn [stdout]. now rewrite <- app_assoc.
Qed.
End RunOutcomes.

Lemma run_returns_scrubbed_reply_witness :
  exists self,
    Cardiologist Sample.fallback_only (PStr (txt "Patient reports palpitations")) = Ret self
    /\ fst (run Sample.fallback_only (Some us_ascii)
              (Sample.answering (Sample.chat_reply (PStr [0x4E; 0x6F; 0x20; 0x2192; 0x20; 0x45; 0x43; 0x47])))
              self Sample.fresh)
       = Ret (PStr [0x4E; 0x6F; 0x20; 63; 0x20; 0x45; 0x43; 0x47]).
Proof.
  eexists. split; [vm_compute; reflexivity|].
  erewrite (run_returns_scrubbed_reply Sample.fallback_only (Some us_ascii) _ us_ascii_laws
              _ Sample.fresh
              (before_placeholder (txt "Cardiologist")
               ++ txt "Patient reports palpitations"
               ++ after_placeholder (txt "Cardiologist"))
              _ [0x4E; 0x6F; 0x20; 0x2192; 0x20; 0x45; 0x43; 0x47]).
  - reflexivity.
  - vm_compute. reflexivity.
  - reflexivity.
  - reflexivity.
Defined.

Lemma run_reply_not_text_witness :
  exists self,
    Cardiologist Sample.fallback_only (PStr (txt "Patient reports palpitations")) = Ret self
    /\ fst (run Sample.fallback_only None (Sample.answering (Sample.chat_reply PNone))
              self Sample.fresh)
       = Ret PNone.
Proof.
  eexists. split; [vm_compute; reflexivity|].
  erewrite (run_reply_not_text Sample.fallback_only None _ _ Sample.fresh
              (before_placeholder (txt "Cardiologist")
               ++ txt "Patient reports palpitations"
               ++ after_placeholder (txt "Cardiologist"))
              _ PNone).
  - reflexivity.
  - vm_compute. reflexivity.
  - reflexivity.
  - reflexivity.
  - discriminate.
Defined.

Lemma run_does_not_catch_interrupts_witness :
  exists self,
    Cardiologist Sample.fallback_only (PStr (txt "Patient reports palpitations")) = Ret self
    /\ fst (run Sample.fallback_only None Fixture.interrupted self Sample.fresh)
       = Raise KeyboardInterrupt
    /\ stdout (snd (run Sample.fallback_only None Fixture.interrupted self Sample.fresh))
       = [[PrStr (txt "Cardiologist is running...")]].
Proof.
  eexists. split; [vm_compute; reflexivity|].
  erewrite (run_does_not_catch_interrupts Sample.fallback_only None _ _ Sample.fresh
              (before_placeholder (txt "Cardiologist")
               ++ txt "Patient reports palpitations"
               ++ after_placeholder (txt "Cardiologist"))
              KeyboardInterrupt).
  - split; [reflexivity | vm_compute; reflexivity].
  - vm_compute. reflexivity.
  - reflexivity.
  - reflexivity.
Defined.

Lemma run_result_shape_witness :
  exists self w',
    Pulmonologist Sample.both_keys (PStr (txt "Chronic cough")) = Ret self
    /\ run Sample.both_keys None Sample.unreachable self Sample.fresh = (Ret PNone, w')
    /\ ((exists s, PNone = PStr s
                   /\ stdout w' = stdout Sample.fresh
                                  ++ [[PrStr (py_str (role self) ++ txt " is running...")]])
        \/ (PNone = PNone
            /\ exists e, is_Exception e = true
                         /\ stdout w' = stdout Sample.fresh
                                        ++ [[PrStr (py_str (role self) ++ txt " is running...")];
                                            [PrStr (txt "Error occurred:"); PrExn e]])).
Proof.
  eexists. eexists. split; [vm_compute; reflexivity|].
  split; [vm_compute; reflexivity|].
  apply (run_result_shape Sample.both_keys None Sample.unreachable).
  vm_compute. reflexivity.
Defined.

(** ** Construction *)

Lemma create_prompt_template_role (role : pyval) (extra_info : option (gmap text pyval))
    (pt : PromptTemplate) :
  create_prompt_template role extra_info = Ret pt ->
  exists r, In r recognized_roles /\ role = PStr r.
Proof.
  unfold create_prompt_template. destruct (str_eq role _) eqn:Hteam.
  - intros _. destruct role as [|s| |]; try discriminate.
    cbn in Hteam. apply bool_decide_eq_true in Hteam as ->.
    eexists. split; [|reflexivity]. unfold recognized_roles.
    apply in_or_app. right. now left.
  - destruct role as [|s| |]; try discriminate. cbn [dict_getitem].
    destruct (specialist_templates !! s) eqn:Hs; [|discriminate]. intros _.
    exists s. split; [|reflexivity]. unfold recognized_roles.
    apply in_or_app. left. apply specialist_templates_keys. now rewrite Hs.
Qed.

Lemma py_or_truthy (a b : option text) :
  truthy (py_or a b) = true ->
  exists c key, py_or a b = Some (c :: key).
Proof.
  destruct (py_or a b) as [[|c key]|]; try discriminate. eauto.
Qed.

(** X8.  An agent that has been constructed has one of the four
    recognized roles and holds the arguments it was given; its client
    points at the OpenRouter endpoint with a key that is not empty: the
    value of [OPENROUTER_API_KEY] unless that is unset or empty, in which
    case the value of [OPENAI_API_KEY]. *)
Theorem constructed_agent_invariant (environ : gmap text text)
    (medical_report0 role0 : pyval) (extra_info0 : option (gmap text pyval))
    (self : Agent) :
  Agent_init environ medical_report0 role0 extra_info0 = Ret self ->
  (exists r, In r recognized_roles /\ role self = PStr r)
  /\ role self = role0
  /\ medical_report self = medical_report0
  /\ extra_info self = extra_info0
  /\ create_prompt_template role0 extra_info0 = Ret (prompt_template self)
  /\ base_url (client self) = txt "https://openrouter.ai/api/v1"
  /\ api_key (client self) <> []
  /\ Some (api_key (client self))
     = (if truthy (environ !! txt "OPENROUTER_API_KEY")
        then environ !! txt "OPENROUTER_API_KEY"
        else environ !! txt "OPENAI_API_KEY").
Proof.
  unfold Agent_init, getenv.
  destruct (create_prompt_template role0 extra_info0) as [pt| |] eqn:Ht;
    cbn [mbind result_bind]; try discriminate.
  destruct (truthy (py_or _ _)) eqn:Hkey; cbn [negb]; [|discriminate].
  destruct (py_or_truthy _ _ Hkey) as (c & key & Hor).
  intros [= <-]. cbn [role medical_report extra_info prompt_template client base_url api_key].
  rewrite Hor. cbn [default].
  repeat split; try reflexivity; try discriminate.
  - exact (create_prompt_template_role role0 extra_info0 pt Ht).
  - exact (eq_sym Hor).
Qed.

Lemma constructed_agent_invariant_witness :
  exists self,
    MultidisciplinaryTeam Fixture.preferred_only
      (PStr (txt "sinus rhythm")) (PStr (txt "anxiety")) PNone = Ret self
    /\ api_key (client self) = txt "sk-or-preferred"
    /\ role self = PStr (txt "MultidisciplinaryTeam").
Proof.
  eexists. split; [vm_compute; reflexivity|].
  match goal with
  | |- context [role ?self] =>
      destruct (constructed_agent_invariant Fixture.preferred_only PNone
                  (PStr (txt "MultidisciplinaryTeam"))
                  (Some (<[txt "cardiologist_report" := PStr (txt "sinus rhythm")]>
                         (<[txt "psychologist_report" := PStr (txt "anxiety")]>
                         (<[txt "pulmonologist_report" := PNone]> ∅))))
                  self)
        as (_ & Hrole & _ & _ & _ & _ & _ & Hkey)
  end.
  - vm_compute. reflexivity.
  - split; [|exact Hrole]. exact (f_equal (default []) Hkey).
Defined.

(** A specialist's construction, in full. *)
Lemma Agent_init_specialist (environ : gmap text text) (r : text)
    (medical_report0 : pyval) (extra_info0 : option (gmap text pyval)) :
  In r specialist_roles ->
  Agent_init environ medical_report0 (PStr r) extra_info0
  = match py_or (environ !! txt "OPENROUTER_API_KEY") (environ !! txt "OPENAI_API_KEY") with
    | Some (c :: key) =>
        Ret {| medical_report := medical_report0;
               role := PStr r;
               extra_info := extra_info0;
               prompt_template :=
                 {| template := before_placeholder r ++ placeholder ++ after_placeholder r;
                    input_variables := {[ txt "medical_report" ]} |};
               client := {| base_url := txt "https://openrouter.ai/api/v1";
                            api_key := c :: key |} |}
    | _ => Raise (RuntimeError (no_api_key_message false false))
    end.
Proof.
  intros Hr. unfold Agent_init, getenv.
  rewrite (create_specialist_template r extra_info0 Hr). cbn [mbind result_bind].
  unfold py_or.
  destruct (environ !! txt "OPENROUTER_API_KEY") as [[|c key]|];
    destruct (environ !! txt "OPENAI_API_KEY") as [[|c' key']|]; reflexivity.
Qed.

(** X9.  Whether a specialist agent can be constructed depends on the
    environment alone: for every report and every [extra_info], it is
    constructed exactly when one of the two key variables has a value
    that is not empty, and its template then has the one variable
    [medical_report]. *)
Theorem specialist_construction (environ : gmap text text) (r : text)
    (medical_report0 : pyval) (extra_info0 : option (gmap text pyval)) :
  In r specialist_roles ->
  ((exists self, Agent_init environ medical_report0 (PStr r) extra_info0 = Ret self)
   <-> truthy (environ !! txt "OPENROUTER_API_KEY") = true
       \/ truthy (environ !! txt "OPENAI_API_KEY") = true)
  /\ forall self,
       Agent_init environ medical_report0 (PStr r) extra_info0 = Ret self ->
       input_variables (prompt_template self) = {[ txt "medical_report" ]}
       /\ template (prompt_template self)
          = before_placeholder r ++ txt "{medical_report}" ++ after_placeholder r.
Proof.
  intros Hr. rewrite (Agent_init_specialist environ r medical_report0 extra_info0 Hr).
  unfold py_or. split.
  - destruct (environ !! txt "OPENROUTER_API_KEY") as [[|c key]|];
      destruct (environ !! txt "OPENAI_API_KEY") as [[|c' key']|]; cbn;
      split; try (intros [self [=]]); try (intros [[=] | [=]]); eauto.
  - intros self.
    destruct (environ !! txt "OPENROUTER_API_KEY") as [[|c key]|];
      destruct (environ !! txt "OPENAI_API_KEY") as [[|c' key']|]; cbn;
      try discriminate; intros [= <-]; split; reflexivity.
Qed.

Lemma specialist_construction_witness :
  (exists self,
     Agent_init Fixture.preferred_only PNone (PStr (txt "Psychologist")) None = Ret self)
  /\ ~ (exists self, Agent_init ∅ PNone (PStr (txt "Psychologist")) None = Ret self).
Proof.
  assert (Hr : In (txt "Psychologist") specialist_roles) by (simpl; tauto).
  split.
  - apply (proj1 (specialist_construction Fixture.preferred_only _ PNone None Hr)).
    left. reflexivity.
  - intros H.
    apply (proj1 (specialist_construction ∅ _ PNone None Hr)) in H.
    destruct H as [H | H]; discriminate H.
Defined.

(** ** Specialists and the aggregator at work *)

(** The requests sent by [run] when the prompt renders. *)
Lemma run_sent (environ : gmap text text) (stdout_encoding : option Codec)
    (service : request -> result pyval) (self : Agent) (w : world) (prompt : text) :
  format (prompt_template self) {[ txt "medical_report" := medical_report self ]}
  = Ret prompt ->
  sent (snd (run environ stdout_encoding service self w))
  = sent w ++ [Request (base_url (client self)) (api_key (client self))
                       (getenv_default environ (txt "OPENROUTER_MODEL") default_model)
                       [(txt "user", prompt)]].
Proof.
  intros Hp. rewrite (run_rendered _ _ _ _ _ _ Hp). cbv zeta.
  destruct (service _) as [completion|e|]; [| |reflexivity].
  - destruct (extract_content completion ≫= sanitize stdout_encoding) as [v|e|];
      [reflexivity| |reflexivity].
    destruct (is_Exception e); reflexivity.
  - destruct (is_Exception e); reflexivity.
Qed.

(** With ['?'] in the encoding, the sanitizer returns for every text. *)
Lemma sanitize_text_returns (stdout_encoding : option Codec) (s : text) :
  encodable (target_codec stdout_encoding) qmark = true ->
  exists s', sanitize stdout_encoding (PStr s) = Ret (PStr s').
Proof.
  intros Hq. unfold sanitize, py_encode.
  destruct (encode_text_outcome (target_codec stdout_encoding) Strict s) as [[bs ->] | ->].
  { now exists s. }
  cbn [mbind result_bind try_catch is_Exception].
  rewrite (encode_replace_scrub _ Hq).
  destruct (encode_strict_ok (target_codec stdout_encoding)
              (map (scrub (target_codec stdout_encoding)) s)) as [bs ->].
  { now apply scrub_all_encodable. }
  eexists. reflexivity.
Qed.

(** X7.  A specialist agent's [run] comes back without raising whenever
    the standard output takes the line naming the role, its encoding has
    ['?'] in it, and the service either answers with a response whose
    reply text is a string (any response, on a stream that takes every
    text) or fails with an [Exception] whose error line the stream takes;
    the report may be any value.  The prompt sent is the template with
    the string form of the report in place of the placeholder. *)
Theorem specialist_run_returns (environ : gmap text text)
    (stream : stdout_stream) (service : request -> result pyval)
    (r : text) (medical_report0 : pyval) (extra_info0 : option (gmap text pyval))
    (self : Agent) (w : world) :
  In r specialist_roles ->
  Agent_init environ medical_report0 (PStr r) extra_info0 = Ret self ->
  accepts stream [PrStr (r ++ txt " is running...")] ->
  encodable (target_codec (s_encoding stream)) qmark = true ->
  (forall req, match service req with
               | Ret completion =>
                   lenient stream = true
                   \/ exists s, extract_content completion = Ret (PStr s)
               | Raise e =>
                   is_Exception e = true
                   /\ accepts stream [PrStr (txt "Error occurred:"); PrExn e]
               | Unspecified => False
               end) ->
  exists v w',
    run_on environ stream service self w = (Ret v, w')
    /\ sent w' = sent w
                 ++ [Request (txt "https://openrouter.ai/api/v1") (api_key (client self))
                       (getenv_default environ (txt "OPENROUTER_MODEL") default_model)
                       [(txt "user",
                         before_placeholder r ++ py_str medical_report0
                         ++ after_placeholder r)]].
Proof.
  intros Hr Hinit Hline Hq Hservice.
  destruct (specialist_template_shape r Hr) as (_ & Hpre & Hpost).
  rewrite (Agent_init_specialist environ r medical_report0 extra_info0 Hr) in Hinit.
  destruct (py_or _ _) as [[|c key]|]; try discriminate. injection Hinit as <-.
  assert (Hp : format {| template := before_placeholder r ++ placeholder ++ after_placeholder r;
                         input_variables := {[ txt "medical_report" ]} |}
                 {[ txt "medical_report" := medical_report0 ]}
               = Ret (before_placeholder r ++ py_str medical_report0 ++ after_placeholder r)).
  { unfold format. cbn [template].
    apply (vformat_one_placeholder _ medical_report0); [|exact Hpre | exact Hpost].
    apply lookup_singleton_eq. }
  match goal with |- context [run_on _ _ _ ?a _] => set (self := a) end.
  pose proof (run_on_rendered environ stream service self w _ Hline Hp) as Hrun.
  cbv zeta in Hrun. cbn [client base_url api_key self] in Hrun |- *.
  match type of Hrun with context [service ?req] => specialize (Hservice req) end.
  assert (Hreport : forall e w1, accepts stream [PrStr (txt "Error occurred:"); PrExn e] ->
            (print_on stream [PrStr (txt "Error occurred:"); PrExn e];; mret PNone) w1
            = (Ret PNone,
               World (stdout w1 ++ [[PrStr (txt "Error occurred:"); PrExn e]]) (sent w1))).
  { intros e w1 He. unfold mbind, M_bind. now rewrite (print_on_accepted stream _ w1 He). }
  destruct (service _) as [completion|e|]; [| |contradiction].
  - destruct Hservice as [Hl | [s Hs]].
    + destruct (extract_content_returns completion) as [content Hc].
      rewrite Hc in Hrun. cbn [mbind result_bind] in Hrun.
      destruct (sanitize_outcome (s_encoding stream) content) as [[s Hs] | (e & Hs & He)];
        rewrite Hs in Hrun; [rewrite Hrun; eauto|].
      rewrite He, (Hreport e _ (lenient_accepts _ _ Hl)) in Hrun. rewrite Hrun. eauto.
    + rewrite Hs in Hrun. cbn [mbind result_bind] in Hrun.
      destruct (sanitize_text_returns (s_encoding stream) s Hq) as [s' Hs'].
      rewrite Hs' in Hrun. rewrite Hrun. eauto.
  - destruct Hservice as [He Hacc].
    rewrite He, (Hreport e _ Hacc) in Hrun. rewrite Hrun. eauto.
Qed.

Lemma specialist_run_returns_witness :
  let utf8_strict := {| s_encoding := Some utf_8; s_errors := Strict;
                        s_reconfigure := true; s_buffer := true |} in
  let self :=
    {| medical_report := PNone;
       role := PStr (txt "Cardiologist");
       extra_info := None;
       prompt_template :=
         {| template := before_placeholder (txt "Cardiologist") ++ placeholder
                        ++ after_placeholder (txt "Cardiologist");
            input_variables := {[ txt "medical_report" ]} |};
       client := {| base_url := txt "https://openrouter.ai/api/v1";
                    api_key := txt "sk-fallback" |} |} in
  Cardiologist Sample.fallback_only PNone = Ret self
  /\ exists v w',
       run_on Sample.fallback_only utf8_strict Sample.unreachable self Sample.fresh
       = (Ret v, w')
       /\ sent w' = sent Sample.fresh
                    ++ [Request (txt "https://openrouter.ai/api/v1") (api_key (client self))
                          (getenv_default Sample.fallback_only (txt "OPENROUTER_MODEL")
                             default_model)
                          [(txt "user",
                            before_placeholder (txt "Cardiologist") ++ py_str PNone
                            ++ after_placeholder (txt "Cardiologist"))]].
Proof.
  intros utf8_strict self.
  assert (H : Cardiologist Sample.fallback_only PNone = Ret self)
    by (vm_compute; reflexivity).
  split; [exact H|].
  apply (specialist_run_returns Sample.fallback_only utf8_strict Sample.unreachable
           (txt "Cardiologist") PNone None self Sample.fresh).
  - simpl. tauto.
  - exact H.
  - repeat constructor.
  - reflexivity.
  - intros req. split; [reflexivity | repeat constructor].
Defined.

(** X10.  The aggregator's prompt when no report has a brace in it: the
    template is the text with the three reports in it, a report missing
    from the mapping counting as the empty string; rendering succeeds
    whatever is passed for [medical_report] and returns that text, which
    contains each report and no brace. *)
Theorem aggregator_prompt_without_braces (m : gmap text pyval) (kwargs : gmap text pyval) :
  let report (k : text) := py_str (default (PStr []) (m !! k)) in
  let c := report (txt "cardiologist_report") in
  let p := report (txt "psychologist_report") in
  let q := report (txt "pulmonologist_report") in
  brace_free c = true -> brace_free p = true -> brace_free q = true ->
  exists pt,
    create_prompt_template (PStr (txt "MultidisciplinaryTeam")) (Some m) = Ret pt
    /\ input_variables pt = ∅
    /\ format pt kwargs = Ret (team_template c p q)
    /\ brace_free (team_template c p q) = true
    /\ contains (team_template c p q) c
    /\ contains (team_template c p q) p
    /\ contains (team_template c p q) q.
Proof.
  intros report c p q Hc Hp Hq.
  pose proof (team_template_brace_free c p q Hc Hp Hq) as Hfree.
  exists {| template := team_template c p q; input_variables := ∅ |}.
  split; [|split; [reflexivity|split; [|split; [exact Hfree | apply team_template_contains]]]].
  - unfold create_prompt_template.
    change (str_eq _ _) with true. cbn [dict_get mbind result_bind].
    now apply from_template_brace_free.
  - unfold format. cbn [template]. now apply vformat_brace_free.
Qed.

Lemma aggregator_prompt_without_braces_witness :
  exists pt,
    create_prompt_template (PStr (txt "MultidisciplinaryTeam"))
      (Some (<[txt "cardiologist_report" := PStr (txt "sinus rhythm")]> ∅))
    = Ret pt
    /\ format pt ∅ = Ret (team_template (txt "sinus rhythm") [] [])
    /\ contains (team_template (txt "sinus rhythm") [] []) (txt "sinus rhythm").
Proof.
  pose proof (aggregator_prompt_without_braces
                (<[txt "cardiologist_report" := PStr (txt "sinus rhythm")]> ∅) ∅) as H.
  cbv zeta in H.
  destruct H as (pt & Hpt & _ & Hformat & _ & Hc & _); [vm_compute; reflexivity..|].
  exists pt. split; [exact Hpt|]. split; [exact Hformat | exact Hc].
Defined.

(** X11.  The aggregator's request: whatever the three values are
    (strings or not, [None] for a specialist that gave no answer), if
    their string forms have no braces and a key is available, the agent
    is constructed and the one message it sends is the template with the
    three string forms in it; a missing answer is sent as the word
    [None]. *)
Theorem aggregator_request (environ : gmap text text) (stdout_encoding : option Codec)
    (service : request -> result pyval) (c p q : pyval) (w : world) :
  truthy (environ !! txt "OPENROUTER_API_KEY") = true
  \/ truthy (environ !! txt "OPENAI_API_KEY") = true ->
  brace_free (py_str c) = true ->
  brace_free (py_str p) = true ->
  brace_free (py_str q) = true ->
  exists self,
    MultidisciplinaryTeam environ c p q = Ret self
    /\ exists req,
         sent (snd (run environ stdout_encoding service self w)) = sent w ++ [req]
         /\ req_messages req = [(txt "user", team_template (py_str c) (py_str p) (py_str q))]
         /\ (c = PNone ->
             contains (team_template (py_str c) (py_str p) (py_str q))
                      (txt "Cardiologist Report: None")).
Proof.
  intros Hkey Hc Hp Hq.
  pose proof (team_template_brace_free _ _ _ Hc Hp Hq) as Hfree.
  unfold MultidisciplinaryTeam, Agent_init, create_prompt_template, getenv.
  change (str_eq _ _) with true. cbn [dict_get mbind result_bind].
  change (default (PStr []) (_ !! txt "cardiologist_report")) with c.
  change (default (PStr []) (_ !! txt "psychologist_report")) with p.
  change (default (PStr []) (_ !! txt "pulmonologist_report")) with q.
  rewrite (from_template_brace_free _ Hfree). cbn [mbind result_bind].
  assert (Htruthy : truthy (py_or (environ !! txt "OPENROUTER_API_KEY")
                                  (environ !! txt "OPENAI_API_KEY")) = true).
  { unfold py_or. destruct Hkey as [H | H].
    - now rewrite H.
    - destruct (truthy (environ !! txt "OPENROUTER_API_KEY")) eqn:E; [exact E | exact H]. }
  rewrite Htruthy. cbn [negb].
  eexists. split; [reflexivity|].
  eexists. split.
  { apply run_sent. unfold format. cbn [prompt_template template].
    now apply vformat_brace_free. }
  split; [reflexivity|].
  - intros ->. unfold team_template. cbn [join_lines py_str].
    change (txt "                Cardiologist Report: " ++ txt "None")
      with (txt "                " ++ txt "Cardiologist Report: None").
    eauto 20 with substring.
Qed.

Lemma aggregator_request_witness :
  exists self req,
    MultidisciplinaryTeam Sample.both_keys PNone (PStr (txt "anxiety")) (PStr (txt "asthma"))
    = Ret self
    /\ sent (snd (run Sample.both_keys None Sample.unreachable self Sample.fresh))
       = sent Sample.fresh ++ [req]
    /\ req_messages req
       = [(txt "user", team_template (txt "None") (txt "anxiety") (txt "asthma"))].
Proof.
  destruct (aggregator_request Sample.both_keys None Sample.unreachable
              PNone (PStr (txt "anxiety")) (PStr (txt "asthma")) Sample.fresh
              ltac:(left; reflexivity) eq_refl eq_refl eq_refl)
    as (self & Hself & req & Hsent & Hmsg & _).
  exists self, req. split; [exact Hself|]. split; [exact Hsent | exact Hmsg].
Defined.

(** X12.  A response without a first choice (no [choices] attribute, a
    value that cannot be indexed, an empty list) is not an error: the
    reply text is the string form of the response. *)
Theorem extract_without_first_choice (completion : pyval) :
  (forall choice,
     (getattr completion (txt "choices") ≫= fun choices => getitem choices 0)
     <> Ret choice) ->
  extract_content completion = Ret (PStr (py_str completion)).
Proof.
  intros Hnone. unfold extract_content, primary_field, secondary_field.
  destruct (getattr_outcome completion (txt "choices")) as [[choices Hcs] | Hcs];
    rewrite Hcs in *; cbn [mbind result_bind] in *; [|reflexivity].
  destruct (getitem_outcome choices 0) as [[choice Hch] | (e & Hch & He)];
    rewrite Hch in *; cbn [mbind result_bind] in *.
  - now destruct (Hnone choice).
  - now rewrite !(try_catch_raise _ _ He).
Qed.

Lemma extract_without_first_choice_witness :
  extract_content Fixture.no_choices = Ret (PStr (txt "ChatCompletion(choices=[])")).
Proof.
  apply (extract_without_first_choice Fixture.no_choices).
  intros choice. vm_compute. discriminate.
Defined.

(** ** Start-up *)

(** The start-up code never fails, and leaves one of three streams. *)
Lemma configure_stdout_returns (s : stdout_stream) :
  configure_stdout s
  = Ret (if s_reconfigure s then
           {| s_encoding := Some utf_8; s_errors := Strict;
              s_reconfigure := true; s_buffer := s_buffer s |}
         else if s_buffer s then
           {| s_encoding := Some utf_8; s_errors := Replace;
              s_reconfigure := true; s_buffer := true |}
         else s).
Proof.
  unfold configure_stdout, reconfigure, wrap_buffer.
  destruct (s_reconfigure s); [reflexivity|].
  destruct (s_buffer s); reflexivity.
Qed.

Lemma Agent_init_key (environ : gmap text text) (medical_report0 role0 : pyval)
    (extra_info0 : option (gmap text pyval)) (self : Agent) :
  Agent_init environ medical_report0 role0 extra_info0 = Ret self ->
  Some (api_key (client self))
  = py_or (environ !! txt "OPENROUTER_API_KEY") (environ !! txt "OPENAI_API_KEY").
Proof.
  unfold Agent_init, getenv.
  destruct (create_prompt_template role0 extra_info0) as [pt| |];
    cbn [mbind result_bind]; try discriminate.
  destruct (truthy (py_or _ _)) eqn:Hkey; cbn [negb]; [|discriminate].
  destruct (py_or_truthy _ _ Hkey) as (c & key & Hor).
  intros [= <-]. cbn [client api_key]. now rewrite Hor.
Qed.

(** X16.  With the environment file loaded the way [Agents.py] does it,
    each variable keeps the value the process environment gives it, an
    empty one included, and takes the file's value exactly when the
    process environment does not have it (and [dotenv] is installed and
    the file exists).  The two keys are looked up one by one, so the key
    of a constructed agent is [a or b] of the two values found this way:
    an exported non-empty [OPENROUTER_API_KEY] is the key; an exported
    but empty one hides the file's, and the key is [OPENAI_API_KEY] from
    the process or else from the file; with no [OPENROUTER_API_KEY]
    exported, a non-empty one in the file is the key, even when the
    process exports [OPENAI_API_KEY]. *)
Theorem environment_file_never_overrides (dotenv_installed : bool)
    (env_file : option (gmap text text)) (environ : gmap text text)
    (medical_report0 role0 : pyval) (extra_info0 : option (gmap text pyval))
    (self : Agent) :
  let loaded := load_environment_file dotenv_installed env_file environ in
  let from_file (name : text) : option text :=
    if dotenv_installed then
      match env_file with
      | Some entries => entries !! name
      | None => None
      end
    else None in
  let found (name : text) : option text :=
    match environ !! name with
    | Some value => Some value
    | None => from_file name
    end in
  Agent_init loaded medical_report0 role0 extra_info0 = Ret self ->
  (forall name, loaded !! name = found name)
  /\ Some (api_key (client self))
     = py_or (found (txt "OPENROUTER_API_KEY")) (found (txt "OPENAI_API_KEY"))
  /\ (truthy (environ !! txt "OPENROUTER_API_KEY") = true ->
        Some (api_key (client self)) = environ !! txt "OPENROUTER_API_KEY")
  /\ (environ !! txt "OPENROUTER_API_KEY" = Some [] ->
        Some (api_key (client self)) = found (txt "OPENAI_API_KEY"))
  /\ (environ !! txt "OPENROUTER_API_KEY" = None ->
        truthy (from_file (txt "OPENROUTER_API_KEY")) = true ->
        Some (api_key (client self)) = from_file (txt "OPENROUTER_API_KEY"))
  /\ (environ !! txt "OPENROUTER_API_KEY" = None ->
        truthy (from_file (txt "OPENROUTER_API_KEY")) = false ->
        Some (api_key (client self)) = found (txt "OPENAI_API_KEY")).
Proof.
  intros loaded from_file found Hinit. apply Agent_init_key in Hinit.
  assert (Hfound : forall name, loaded !! name = found name).
  { intros name. unfold loaded, found, from_file, load_environment_file, load_dotenv.
    destruct (environ !! name) as [value|] eqn:E.
    - destruct dotenv_installed; [|exact E]. destruct env_file; [|exact E].
      now apply lookup_union_Some_l.
    - destruct dotenv_installed; [|exact E]. destruct env_file; [|exact E].
      now apply lookup_union_r. }
  rewrite !Hfound in Hinit. rewrite Hinit.
  split; [exact Hfound|]. split; [reflexivity|].
  assert (Hor_found : found (txt "OPENROUTER_API_KEY")
                      = match environ !! txt "OPENROUTER_API_KEY" with
                        | Some value => Some value
                        | None => from_file (txt "OPENROUTER_API_KEY")
                        end) by reflexivity.
  unfold py_or. rewrite Hor_found. clear Hor_found. repeat split.
  - intros Hor. destruct (environ !! txt "OPENROUTER_API_KEY") as [key|];
      [|discriminate]. now rewrite Hor.
  - now intros ->.
  - intros -> Hfile. now rewrite Hfile.
  - intros -> Hfile. now rewrite Hfile.
Qed.

Lemma environment_file_never_overrides_witness :
  (exists self,
     Agent_init (load_environment_file true (Some Fixture.env_file) Fixture.exported_empty)
       (PStr (txt "Chronic cough")) (PStr (txt "Pulmonologist")) None
     = Ret self
     /\ api_key (client self) = txt "sk-from-file")
  /\ (exists self,
        Agent_init (load_environment_file true (Some Fixture.file_preferred_only)
                      Sample.fallback_only)
          (PStr (txt "Chronic cough")) (PStr (txt "Pulmonologist")) None
        = Ret self
        /\ api_key (client self) = txt "sk-or-from-file").
Proof.
  split.
  - eexists. split; [vm_compute; reflexivity|].
    match goal with
    | |- api_key (client ?self) = _ =>
        destruct (environment_file_never_overrides true (Some Fixture.env_file)
                    Fixture.exported_empty (PStr (txt "Chronic cough"))
                    (PStr (txt "Pulmonologist")) None self)
          as (_ & _ & _ & Hempty & _)
    end.
    + vm_compute. reflexivity.
    + exact (f_equal (default []) (Hempty eq_refl)).
  - eexists. split; [vm_compute; reflexivity|].
    match goal with
    | |- api_key (client ?self) = _ =>
        destruct (environment_file_never_overrides true (Some Fixture.file_preferred_only)
                    Sample.fallback_only (PStr (txt "Chronic cough"))
                    (PStr (txt "Pulmonologist")) None self)
          as (_ & _ & _ & _ & Hfile & _)
    end.
    + vm_compute. reflexivity.
    + exact (f_equal (default []) (Hfile eq_refl eq_refl)).
Defined.

(** ** The script *)

Section ScriptFacts.
Variable environ : gmap text text.
Variable service : request -> result pyval.

Let the_request (key : text) : request :=
  Request (txt "https://openrouter.ai/api/v1") key (txt "openai/gpt-oss-20b:free")
          [(txt "user", the_question)].

Lemma print_to_sent (s : stdout_stream) (v : pyval) (w : world) :
  sent (snd (print_to s v w)) = sent w.
Proof.
  unfold print_to, mbind, M_bind, lift, print.
  destruct (s_encoding s) as [cd|]; [|reflexivity].
  now destruct (encode_text cd (s_errors s) (py_str v)).
Qed.

(** The script up to its first [print]. *)
Lemma open_router_main_unfold (s0 : stdout_stream) (w : world) (key : text) :
  environ !! txt "OPENROUTER_API_KEY" = Some key ->
  exists st,
    configure_stdout s0 = Ret st
    /\ open_router_main environ service s0 w
       = let w1 := World (stdout w) (sent w ++ [the_request key]) in
         match service (the_request key) with
         | Ret completion =>
             match primary_field completion with
             | Ret content =>
                 try_except_encode
                   (print_to st content)
                   (safe ← lift (py_encode (target_codec (s_encoding st)) Replace content);
                    print_to st (PStr (decode_replace (target_codec (s_encoding st)) safe)))
                   w1
             | Raise e => (Raise e, w1)
             | Unspecified => (Unspecified, w1)
             end
         | Raise e => (Raise e, w1)
         | Unspecified => (Unspecified, w1)
         end.
Proof.
  intros Hkey. eexists. split; [apply configure_stdout_returns|].
  unfold open_router_main, getenv. rewrite configure_stdout_returns, Hkey.
  unfold mbind at 1 2 3, M_bind, lift, OpenAI_new, chat_completions_create.
  cbn [base_url api_key]. fold (the_request key). cbv zeta.
  destruct (service (the_request key)) as [completion|e|]; reflexivity.
Qed.

(** X13.  The script sends one request whenever [OPENROUTER_API_KEY] is
    in the environment with a value that is not empty: the fixed
    question to the fixed model with that key.  [OPENROUTER_MODEL] and
    [OPENAI_API_KEY] play no part. *)
Theorem open_router_request (s0 : stdout_stream) (w : world) (key : text) :
  environ !! txt "OPENROUTER_API_KEY" = Some key ->
  key <> [] ->
  sent (snd (open_router_main environ service s0 w))
  = sent w ++ [Request (txt "https://openrouter.ai/api/v1") key
                       (txt "openai/gpt-oss-20b:free")
                       [(txt "user", txt "What is the meaning of life?")]].
Proof.
  intros Hkey _. destruct (open_router_main_unfold s0 w key Hkey) as (st & _ & ->).
  cbv zeta. fold (the_request key).
  destruct (service (the_request key)) as [completion|e|]; try reflexivity.
  destruct (primary_field completion) as [content|e|]; try reflexivity.
  unfold try_except_encode.
  pose proof (print_to_sent st content
                (World (stdout w) (sent w ++ [the_request key]))) as Hbody.
  destruct (print_to st content _) as [[u|e|] w2]; cbn [snd] in *; try exact Hbody.
  destruct (is_UnicodeEncodeError e); [|exact Hbody].
  unfold mbind, M_bind, lift.
  destruct (py_encode _ Replace content) as [safe|e'|]; cbn [snd]; try exact Hbody.
  now rewrite print_to_sent.
Qed.

(** X14.  The script catches nothing but an encoding error of [print]:
    when the service fails, or the response has no
    [choices[0].message.content], the exception leaves the script, and
    nothing has been printed. *)
Theorem open_router_propagates (s0 : stdout_stream) (w : world) (key : text) (e : exn) :
  environ !! txt "OPENROUTER_API_KEY" = Some key ->
  service (the_request key) = Raise e
  \/ (exists completion,
        service (the_request key) = Ret completion
        /\ primary_field completion = Raise e) ->
  open_router_main environ service s0 w
  = (Raise e, World (stdout w) (sent w ++ [the_request key])).
Proof.
  intros Hkey Hfail. destruct (open_router_main_unfold s0 w key Hkey) as (st & _ & ->).
  cbv zeta. destruct Hfail as [-> | (completion & -> & ->)]; reflexivity.
Qed.

(** X15.  The script's printing of a reply that is a string never fails,
    on any stream whose codec satisfies the laws: a strict stream gets
    the reply with the code points it lacks replaced by ['?'], any other
    stream gets the reply as it is. *)
Theorem open_router_prints_reply (s0 st : stdout_stream) (w : world) (key : text)
    (completion : pyval) (s : text) :
  environ !! txt "OPENROUTER_API_KEY" = Some key ->
  configure_stdout s0 = Ret st ->
  (forall cd, s_encoding st = Some cd -> CodecLaws cd) ->
  service (the_request key) = Ret completion ->
  primary_field completion = Ret (PStr s) ->
  open_router_main environ service s0 w
  = (Ret tt,
     World (stdout w
            ++ [[PrStr match s_encoding st, s_errors st with
                       | Some cd, Strict => map (scrub cd) s
                       | _, _ => s
                       end]])
           (sent w ++ [the_request key])).
Proof.
  intros Hkey Hst Hlaws Hservice Hcontent.
  destruct (open_router_main_unfold s0 w key Hkey) as (st' & Hst' & ->).
  rewrite Hst in Hst'. injection Hst' as <-.
  cbv zeta. rewrite Hservice, Hcontent.
  unfold try_except_encode, print_to, target_codec.
  destruct (s_encoding st) as [cd|] eqn:Henc; [|reflexivity].
  specialize (Hlaws cd eq_refl). cbn [default py_str].
  unfold mbind at 1, M_bind at 1, lift at 1.
  destruct (s_errors st).
  - destruct (forallb (encodable cd) s) eqn:E.
    + destruct (encode_strict_ok cd s E) as [bs ->].
      rewrite (scrub_id cd s E). reflexivity.
    + rewrite (encode_strict_fail cd s E). cbn [is_UnicodeEncodeError py_encode].
      rewrite (encode_replace_scrub cd qmark_encodable).
      destruct (encode_strict_ok cd (map (scrub cd) s)) as [bs Hbs].
      { apply scrub_all_encodable, qmark_encodable. }
      unfold mbind, M_bind, lift. rewrite Hbs. change (id cd) with cd.
      rewrite (decode_encode _ _ Hbs). cbn [py_str]. rewrite Hbs. reflexivity.
  - rewrite (encode_replace_scrub cd qmark_encodable).
    destruct (encode_strict_ok cd (map (scrub cd) s)) as [bs ->].
    { apply scrub_all_encodable, qmark_encodable. }
    reflexivity.
Qed.
End ScriptFacts.

Lemma open_router_request_witness :
  sent (snd (open_router_main
               (<[txt "OPENROUTER_MODEL" := txt "meta-llama/llama-3-8b"]> Sample.both_keys)
               Sample.unreachable Fixture.console Sample.fresh))
  = [Request (txt "https://openrouter.ai/api/v1") (txt "sk-or-preferred")
             (txt "openai/gpt-oss-20b:free")
             [(txt "user", txt "What is the meaning of life?")]].
Proof.
  apply (open_router_request
           (<[txt "OPENROUTER_MODEL" := txt "meta-llama/llama-3-8b"]> Sample.both_keys)
           Sample.unreachable Fixture.console Sample.fresh (txt "sk-or-preferred")).
  - vm_compute. reflexivity.
  - discriminate.
Defined.

Lemma open_router_propagates_witness :
  open_router_main Fixture.preferred_only (Sample.answering Sample.bare_reply)
    Fixture.console Sample.fresh
  = (Raise (AttributeError (txt "choices")),
     World []
           [Request (txt "https://openrouter.ai/api/v1") (txt "sk-or-preferred")
                    (txt "openai/gpt-oss-20b:free") [(txt "user", the_question)]]).
Proof.
  apply (open_router_propagates Fixture.preferred_only (Sample.answering Sample.bare_reply)
           Fixture.console Sample.fresh (txt "sk-or-preferred")
           (AttributeError (txt "choices"))).
  - vm_compute. reflexivity.
  - right. exists Sample.bare_reply. split; reflexivity.
Defined.

Lemma open_router_prints_reply_witness :
  open_router_main Fixture.preferred_only
    (Sample.answering (Sample.chat_reply (PStr [0x34; 0x32; 0xD83D; 0x2192])))
    Fixture.console Sample.fresh
  = (Ret tt,
     World [[PrStr [0x34; 0x32; 63; 0x2192]]]
           [Request (txt "https://openrouter.ai/api/v1") (txt "sk-or-preferred")
                    (txt "openai/gpt-oss-20b:free") [(txt "user", the_question)]]).
Proof.
  apply (open_router_prints_reply Fixture.preferred_only
           (Sample.answering (Sample.chat_reply (PStr [0x34; 0x32; 0xD83D; 0x2192])))
           Fixture.console
           {| s_encoding := Some utf_8; s_errors := Strict;
              s_reconfigure := true; s_buffer := true |}
           Sample.fresh (txt "sk-or-preferred")
           (Sample.chat_reply (PStr [0x34; 0x32; 0xD83D; 0x2192]))
           [0x34; 0x32; 0xD83D; 0x2192]).
  - vm_compute. reflexivity.
  - reflexivity.
  - intros cd [= <-]. exact utf_8_laws.
  - reflexivity.
  - reflexivity.
Defined.

(** X17.  Start-up and the sanitizer together: when [sys.stdout] can be
    reconfigured or wrapped, the sanitizer of [run] works against UTF-8
    afterwards, whatever the console encoding was, and changes a reply
    only at its lone surrogates; a stream that allows neither is left as
    it was. *)
Theorem startup_makes_sanitizer_utf8 (s0 st : stdout_stream) (s : text) :
  configure_stdout s0 = Ret st ->
  Forall (fun c => c < 0x110000) s ->
  (s_reconfigure s0 = true \/ s_buffer s0 = true ->
     s_encoding st = Some utf_8
     /\ sanitize (s_encoding st) (PStr s)
        = Ret (PStr (map (fun c => if is_surrogate c then qmark else c) s)))
  /\ (s_reconfigure s0 = false -> s_buffer s0 = false -> st = s0).
Proof.
  rewrite configure_stdout_returns. intros [= <-] Hs. split.
  - intros Hcan.
    assert (Henc : s_encoding (if s_reconfigure s0 then
                     {| s_encoding := Some utf_8; s_errors := Strict;
                        s_reconfigure := true; s_buffer := s_buffer s0 |}
                   else if s_buffer s0 then
                     {| s_encoding := Some utf_8; s_errors := Replace;
                        s_reconfigure := true; s_buffer := true |}
                   else s0) = Some utf_8).
    { destruct (s_reconfigure s0); [reflexivity|].
      destruct (s_buffer s0); [reflexivity|]. now destruct Hcan. }
    rewrite Henc. split; [reflexivity|].
    rewrite (sanitize_scrubs (Some utf_8) (laws := utf_8_laws) s).
    do 2 f_equal. change (target_codec (Some utf_8)) with utf_8.
    induction Hs as [|c s Hc Hs IH]; [reflexivity|].
    cbn [map]. now rewrite IH, (scrub_utf8 c Hc).
  - now intros -> ->.
Qed.

Lemma startup_makes_sanitizer_utf8_witness :
  exists st,
    configure_stdout Fixture.console = Ret st
    /\ sanitize (s_encoding st) (PStr [0x2192; 0xDC00]) = Ret (PStr [0x2192; 63]).
Proof.
  eexists. split; [reflexivity|].
  refine (proj2 (proj1 (startup_makes_sanitizer_utf8 Fixture.console _ [0x2192; 0xDC00]
                          eq_refl _) _)).
  - repeat constructor.
  - now left.
Defined.
